(** * Email recruiter agent: mock status service and the two agent tools

    A shallow embedding of [mockFastAPI.py] (the in-memory status service) and
    of the two tool functions of [agent_workflow.py] ([get_user_status] and
    [send_user_email]), followed by the properties the design document states
    about them.

    Python code that only reads and returns is a Rocq function; code that
    raises, catches, or calls out of the process (HTTP, SMTP) runs in a small
    state-and-exception monad whose state survives a raise, as a Python
    object's state does.

    A Python [str] is the Rocq string of its UTF-8 bytes; a lone surrogate,
    for which UTF-8 has no bytes, is written in the same three-byte pattern
    (237, 160, 128 for U+D800). *)

From stdpp Require Import base option list strings gmap.
From Stdlib Require Import ZArith DecimalString Lia.
From Stdlib Require DecimalZ DecimalPos.

Local Open Scope Z_scope.

(** ** Python values used by both programs *)

Module Py.

(** The decimal text of an integer. *)
Definition decimal (n : Z) : string := NilZero.string_of_int (Z.to_int n).

(** [sys.get_int_max_str_digits()], at its default. *)
Definition int_max_str_digits : nat := 4300.

(** Whether [str] accepts the integer: CPython refuses to convert an [int]
    of more than [int_max_str_digits] digits, the sign not counted. *)
Definition printable (n : Z) : bool :=
  (String.length (decimal (Z.abs n)) <=? int_max_str_digits)%nat.

(** [str(n)] for an [int], also what an f-string does with [{n}]; [None]
    where Python raises [ValueError]. *)
Definition str_int (n : Z) : option string :=
  if printable n then Some (decimal n) else None.

(** The text of that [ValueError]. *)
Definition int_limit_message : string :=
  "Exceeds the limit (4300 digits) for integer string conversion; use sys.set_int_max_str_digits() to increase the limit".

(** [s.startswith(p)]. *)
Definition startswith (p s : string) : bool := String.prefix p s.

(** [sub in s] for strings, as a proposition. *)
Definition contains (sub s : string) : Prop :=
  ∃ pre post : string, s = pre +:+ sub +:+ post.

(** Truthiness of the result of [os.getenv]: [None] and the empty string are
    falsy, every other string is truthy. *)
Definition truthy (o : option string) : bool :=
  match o with
  | None => false
  | Some s => negb (bool_decide (s = EmptyString))
  end.

(** Outcome of running a piece of Python: it returns a value or raises. *)
Inductive outcome (E A : Type) : Type :=
| Return (a : A)
| Raise (e : E).
Global Arguments Return {E A} a.
Global Arguments Raise {E A} e.

(** Computations over a state [S] that may raise an [E].  The state reached
    when the exception is raised is kept. *)
Definition M (S E A : Type) : Type := S → outcome E A * S.

Definition ret {S E A} (a : A) : M S E A := λ st, (Return a, st).

Definition bind {S E A B} (m : M S E A) (k : A → M S E B) : M S E B :=
  λ st, match m st with
        | (Return a, st') => k a st'
        | (Raise e, st') => (Raise e, st')
        end.

Definition raise {S E A} (e : E) : M S E A := λ st, (Raise e, st).

Definition get_state {S E} : M S E S := λ st, (Return st, st).

Definition modify_state {S E} (f : S → S) : M S E unit := λ st, (Return tt, f st).

(** [try: body / except ...:] where [handler e] is [Some h] when one of the
    [except] clauses matches [e], and [None] when [e] passes through. *)
Definition try_except {S E A} (body : M S E A) (handler : E → option (M S E A))
  : M S E A :=
  λ st, match body st with
        | (Return a, st') => (Return a, st')
        | (Raise e, st') =>
            match handler e with
            | Some h => h st'
            | None => (Raise e, st')
            end
        end.

(** [try: body / finally: cleanup].  An exception raised by [cleanup]
    replaces the outcome of [body]. *)
Definition try_finally {S E A} (body : M S E A) (cleanup : M S E unit) : M S E A :=
  λ st, match body st with
        | (r, st') =>
            match cleanup st' with
            | (Return _, st'') => (r, st'')
            | (Raise e, st'') => (Raise e, st'')
            end
        end.

End Py.

Import Py.

Declare Scope py_scope.
Delimit Scope py_scope with py.
Notation "x <- m ;; k" := (bind m (λ x, k))
  (at level 100, m at next level, right associativity) : py_scope.
Notation "m ;; k" := (bind m (λ _, k))
  (at level 100, right associativity) : py_scope.
Local Open Scope py_scope.

(** ** mockFastAPI.py *)

Module MockFastAPI.

(** [fastapi.HTTPException(status_code=..., detail=...)]. *)
Record HTTPException := { status_code : Z; detail : string }.

(** What the handler can raise: the [HTTPException] it builds, or the
    [ValueError] of an f-string that cannot print its integer. *)
Inductive exception :=
| Http (e : HTTPException)
| ValueError (msg : string).

(** Values of a response body: those the handler puts in its
    [Dict[str, Any]], and the list of validation errors FastAPI puts under
    ["detail"], whose content is not modelled. *)
Inductive value :=
| VInt (n : Z)
| VStr (s : string)
| VErrors.

(** A dict literal, in the order it is written. *)
Definition body := list (string * value).

(** The module-level table, as seeded when the module is loaded. *)
Definition mock_user_statuses : gmap Z string :=
  <[101 := "Active"]>
  (<[102 := "Inactive"]>
  (<[103 := "Pending_Approval"]>
  (<[104 := "Suspended"]> ∅))).

(** [{n}] in an f-string. *)
Definition format_int (n : Z) : M (gmap Z string) exception string :=
  match str_int n with
  | Some text => ret text
  | None => raise (ValueError int_limit_message)
  end.

(** The handler.  The state is the current content of the global
    [mock_user_statuses]; the test [user_id not in mock_user_statuses] and
    the subscript [mock_user_statuses[user_id]] that follows it are one
    [!!]. *)
Definition get_user_app_status (user_id : Z) : M (gmap Z string) exception body :=
  tbl <- get_state ;;
  match tbl !! user_id with
  | None =>
      text <- format_int user_id ;;
      raise (Http {| status_code := 404;
                     detail := "User with ID " +:+ text +:+ " not found." |})
  | Some status =>
      text <- format_int user_id ;;
      ret [ ("user_id", VInt user_id);
            ("app_status", VStr status);
            ("message", VStr ("Status retrieved successfully for user "
                              +:+ text +:+ ".")) ]
  end.

(** What the client sees. *)
Record HTTPResponse := { http_status : Z; http_json : body }.

(** FastAPI's part after the handler: a returned dict is sent with status
    200, an [HTTPException] becomes a response with its status code and the
    body [{"detail": ...}], and any other exception becomes the response
    500, whose body is plain text and not JSON. *)
Definition respond (r : outcome exception body) : HTTPResponse :=
  match r with
  | Return b => {| http_status := 200; http_json := b |}
  | Raise (Http e) => {| http_status := status_code e;
                         http_json := [("detail", VStr (detail e))] |}
  | Raise (ValueError _) => {| http_status := 500; http_json := [] |}
  end.

(** The route declares [user_id: int]: FastAPI has pydantic convert the
    path segment before it calls the handler.  pydantic refuses a text of
    more than 4300 characters, the sign counted, so every identifier it
    lets through is one [str] prints. *)
Definition path_accepted (user_id : Z) : bool :=
  (String.length (decimal user_id) <=? 4300)%nat.

(** [GET /users/{user_id}/status] against the current table, for a path
    that holds the identifier in decimal.  A path segment the conversion
    refuses is answered 422 with the validation errors, and the handler is
    not called. *)
Definition endpoint (user_id : Z) (tbl : gmap Z string) : HTTPResponse * gmap Z string :=
  if path_accepted user_id then
    let '(r, tbl') := get_user_app_status user_id tbl in (respond r, tbl')
  else ({| http_status := 422; http_json := [("detail", VErrors)] |}, tbl).

(** A run of the service: the requests are handled one after the other, each
    against the table the previous one left. *)
Fixpoint serve (reqs : list Z) (tbl : gmap Z string) : list HTTPResponse * gmap Z string :=
  match reqs with
  | [] => ([], tbl)
  | user_id :: rest =>
      let '(resp, tbl') := endpoint user_id tbl in
      let '(resps, tbl'') := serve rest tbl' in
      (resp :: resps, tbl'')
  end.

(** [d[key]] on a response body. *)
Fixpoint field (key : string) (b : body) : option value :=
  match b with
  | [] => None
  | (k, v) :: rest => if bool_decide (k = key) then Some v else field key rest
  end.

End MockFastAPI.

(** ** agent_workflow.py *)

Module AgentWorkflow.

(** *** Exceptions *)

(** The exception classes the two tools can meet: built-in ones, those of
    [email.errors], of [requests.exceptions] and of [smtplib].  All derive from
    [Exception]; [KeyboardInterrupt] and [SystemExit], which do not, are
    outside the model. *)
Inductive exn_class :=
| Exception
| OSError
| ValueError
| UnicodeError
| UnicodeEncodeError
| AttributeError
| MessageError
| MessageParseError
| HeaderParseError
| RequestException
| ConnectionError
| Timeout
| HTTPError
| SMTPException
| SMTPServerDisconnected
| SMTPResponseException
| SMTPAuthenticationError.

Global Instance exn_class_eq_dec : EqDecision exn_class.
Proof. solve_decision. Defined.

(** The class with its base classes, nearest first ([cls.__mro__] without
    [BaseException] and [object]). *)
Definition mro (c : exn_class) : list exn_class :=
  match c with
  | Exception => [Exception]
  | OSError => [OSError; Exception]
  | ValueError => [ValueError; Exception]
  | UnicodeError => [UnicodeError; ValueError; Exception]
  | UnicodeEncodeError =>
      [UnicodeEncodeError; UnicodeError; ValueError; Exception]
  | AttributeError => [AttributeError; Exception]
  | MessageError => [MessageError; Exception]
  | MessageParseError => [MessageParseError; MessageError; Exception]
  | HeaderParseError =>
      [HeaderParseError; MessageParseError; MessageError; Exception]
  | RequestException => [RequestException; OSError; Exception]
  | ConnectionError => [ConnectionError; RequestException; OSError; Exception]
  | Timeout => [Timeout; RequestException; OSError; Exception]
  | HTTPError => [HTTPError; RequestException; OSError; Exception]
  | SMTPException => [SMTPException; OSError; Exception]
  | SMTPServerDisconnected =>
      [SMTPServerDisconnected; SMTPException; OSError; Exception]
  | SMTPResponseException =>
      [SMTPResponseException; SMTPException; OSError; Exception]
  | SMTPAuthenticationError =>
      [SMTPAuthenticationError; SMTPResponseException; SMTPException;
       OSError; Exception]
  end.

(** A raised exception: its class and the text [str(e)] gives. *)
Record exn := { exn_type : exn_class; exn_str : string }.

Definition isinstance (e : exn) (c : exn_class) : bool :=
  bool_decide (c ∈ mro (exn_type e)).

(** *** Data *)

(** A value found in a decoded JSON object.  Floats, lists and nested
    objects are carried with the text [str()] prints for them. *)
Inductive pyval :=
| PNone
| PBool (b : bool)
| PInt (n : Z)
| PStr (s : string)
| POther (shown : string).

(** The text of a value, with the decimal text of an [int] whatever its
    size. *)
Definition py_str (v : pyval) : string :=
  match v with
  | PNone => "None"
  | PBool true => "True"
  | PBool false => "False"
  | PInt n => decimal n
  | PStr s => s
  | POther shown => shown
  end.

(** [str(v)], also what an f-string does with [{v}]: [py_str v], except
    for an [int] that [str] refuses, where it is [None]. *)
Definition str_value (v : pyval) : option string :=
  match v with
  | PInt n => str_int n
  | _ => Some (py_str v)
  end.

(** What [response.json()] can return: a [dict], or an object of another
    type ([list], [str], [int], ...), of which only the type's name is used. *)
Inductive document :=
| JObject (items : gmap string pyval)
| JNotObject (type_name : string).

(** The part of [requests.Response] the tool reads; [json_result] is what
    decoding the body gives. *)
Record Response := {
  status_code : Z;
  reason : string;
  url : string;
  json_result : outcome exn document
}.

Record MIMEText := { text : string; text_subtype : string }.

Record MIMEMultipart := {
  subtype : string;
  headers : list (string * string);
  parts : list MIMEText
}.

(** [message[name] = val]: a header is appended. *)
Definition setitem (m : MIMEMultipart) (name val : string) : MIMEMultipart :=
  {| subtype := subtype m; headers := headers m ++ [(name, val)]; parts := parts m |}.

(** [message.attach(part)]. *)
Definition attach (m : MIMEMultipart) (part : MIMEText) : MIMEMultipart :=
  {| subtype := subtype m; headers := headers m; parts := parts m ++ [part] |}.

(** *** What a tool does outside its own code *)

(** The library calls a tool makes, in the order it makes them.
    [sendmail_call] carries the message object whose [as_string()] is sent;
    the rendering itself, a step that can raise, is not listed. *)
Inductive call :=
| requests_get_call (endpoint : string)
| MIMEMultipart_call (subtype : string)
| MIMEText_call (text subtype : string)
| create_default_context_call
| SMTP_call (host : option string) (port : Z)
| starttls_call
| login_call (user password : option string)
| sendmail_call (from_addr to_addrs : string) (msg : MIMEMultipart)
| quit_call
| close_call.

(** State of one tool invocation: the calls made so far, oldest first, and
    whether the [SMTP] object holds a socket. *)
Record state := { calls : list call; connected : bool }.

Definition start : state := {| calls := []; connected := false |}.

(** Everything a run depends on besides the tool's own code: the
    environment variables, how the status service and the mail relay answer,
    and which arguments the [email] and [ssl] libraries refuse.  A result
    [None] means that the call returns, [Some e] that it raises [e];
    [requests_get_result] is the response [requests.get] returns or the
    exception it raises.  [MIMEText_result text subtype] is for
    [MIMEText(text, subtype)], [as_string_result msg] for
    [msg.as_string()]. *)
Record World := {
  environ : gmap string string;
  requests_get_result : string → outcome exn Response;
  MIMEText_result : string → string → option exn;
  create_default_context_result : option exn;
  as_string_result : MIMEMultipart → option exn;
  connect_result : option string → Z → option exn;
  starttls_result : option exn;
  login_result : option string → option string → option exn;
  sendmail_result : string → string → MIMEMultipart → option exn;
  quit_result : option exn
}.

Abbreviation M := (Py.M state exn).

Definition log (c : call) : M unit :=
  modify_state (λ st, {| calls := calls st ++ [c]; connected := connected st |}).

Definition set_connected (b : bool) : M unit :=
  modify_state (λ st, {| calls := calls st; connected := b |}).

(** A library call that returns nothing: it raises or it does not. *)
Definition raise_if (r : option exn) : M unit :=
  match r with
  | Some e => raise e
  | None => ret tt
  end.

(** [{n}] in an f-string. *)
Definition format_int (n : Z) : M string :=
  match str_int n with
  | Some text => ret text
  | None => raise {| exn_type := ValueError; exn_str := int_limit_message |}
  end.

(** [{v}] in an f-string. *)
Definition format_value (v : pyval) : M string :=
  match str_value v with
  | Some text => ret text
  | None => raise {| exn_type := ValueError; exn_str := int_limit_message |}
  end.

(** The [except] clauses of a [try], tried in order. *)
Fixpoint except {A} (clauses : list (exn_class * (exn → M A))) (e : exn)
  : option (M A) :=
  match clauses with
  | [] => None
  | (c, h) :: rest => if isinstance e c then Some (h e) else except rest e
  end.

Section Tools.

Variable w : World.

(** [os.getenv(name)]. *)
Definition getenv (name : string) : option string := environ w !! name.

(** *** requests *)

Definition requests_get (endpoint : string) : M Response :=
  log (requests_get_call endpoint) ;;
  match requests_get_result w endpoint with
  | Return r => ret r
  | Raise e => raise e
  end.

(** [Response.raise_for_status]: an [HTTPError] for the codes 400 to 599 and
    for no other.  The code it prints has three digits. *)
Definition raise_for_status (r : Response) : M unit :=
  if bool_decide (400 ≤ status_code r < 500) then
    raise {| exn_type := HTTPError;
             exn_str := decimal (status_code r) +:+ " Client Error: "
                        +:+ reason r +:+ " for url: " +:+ url r |}
  else if bool_decide (500 ≤ status_code r < 600) then
    raise {| exn_type := HTTPError;
             exn_str := decimal (status_code r) +:+ " Server Error: "
                        +:+ reason r +:+ " for url: " +:+ url r |}
  else ret tt.

Definition response_json (r : Response) : M document :=
  match json_result r with
  | Return d => ret d
  | Raise e => raise e
  end.

(** [data.get(key, dflt)]; an object that is not a [dict] has no [get]. *)
Definition data_get (data : document) (key : string) (dflt : pyval) : M pyval :=
  match data with
  | JObject items => ret (default dflt (items !! key))
  | JNotObject type_name =>
      raise {| exn_type := AttributeError;
               exn_str := "'" +:+ type_name +:+ "' object has no attribute 'get'" |}
  end.

(** *** email, ssl, smtplib *)

(** Building the message and the SSL context stays inside the process.
    [MIMEMultipart] gets a literal and returns; [MIMEText] encodes the text
    it is given and [create_default_context] loads the certificates of the
    system, and each can raise. *)

Definition new_MIMEMultipart (subtype : string) : M MIMEMultipart :=
  log (MIMEMultipart_call subtype) ;;
  ret {| subtype := subtype; headers := []; parts := [] |}.

Definition new_MIMEText (text subtype : string) : M MIMEText :=
  log (MIMEText_call text subtype) ;;
  raise_if (MIMEText_result w text subtype) ;;
  ret {| text := text; text_subtype := subtype |}.

Definition create_default_context : M unit :=
  log create_default_context_call ;;
  raise_if (create_default_context_result w).

(** [msg.as_string()], for the text it fails on; the text it returns is
    not modelled. *)
Definition as_string (msg : MIMEMultipart) : M unit :=
  raise_if (as_string_result w msg).

(** [smtplib.SMTP(host, port)]: connects when [host] is truthy, and only
    then. *)
Definition SMTP_init (host : option string) (port : Z) : M unit :=
  log (SMTP_call host port) ;;
  if truthy host then
    raise_if (connect_result w host port) ;;
    set_connected true
  else ret tt.

(** [SMTP.send], through which every command goes: without a socket it
    raises [SMTPServerDisconnected]. *)
Definition SMTP_send : M unit :=
  st <- get_state ;;
  if connected st then ret tt
  else raise {| exn_type := SMTPServerDisconnected;
                exn_str := "please run connect() first" |}.

Definition SMTP_starttls : M unit :=
  log starttls_call ;;
  SMTP_send ;;
  raise_if (starttls_result w).

Definition SMTP_login (user password : option string) : M unit :=
  log (login_call user password) ;;
  SMTP_send ;;
  raise_if (login_result w user password).

Definition SMTP_sendmail (from_addr to_addrs : string) (msg : MIMEMultipart) : M unit :=
  log (sendmail_call from_addr to_addrs msg) ;;
  SMTP_send ;;
  raise_if (sendmail_result w from_addr to_addrs msg).

(** [SMTP.close]: the socket, if any, is dropped. *)
Definition SMTP_close : M unit :=
  log close_call ;;
  set_connected false.

(** [SMTP.__exit__]: QUIT, where a lost connection is ignored, and
    [close()] in a [finally]. *)
Definition SMTP_exit : M unit :=
  try_finally
    (try_except
       (log quit_call ;; SMTP_send ;; raise_if (quit_result w))
       (except [ (SMTPServerDisconnected, λ _, ret tt) ]))
    SMTP_close.

(** [with smtplib.SMTP(host, port) as server: body]. *)
Definition with_SMTP {A} (host : option string) (port : Z) (body : M A) : M A :=
  SMTP_init host port ;;
  try_finally body SMTP_exit.

(** *** The tools *)

Definition API_BASE_URL : string := "http://127.0.0.1:8001".

Definition SENDER_EMAIL : string := "your-support@example.com".

Definition get_user_status (user_id : Z) : M string :=
  id_text <- format_int user_id ;;
  let endpoint := API_BASE_URL +:+ "/users/" +:+ id_text +:+ "/status" in
  try_except
    (response <- requests_get endpoint ;;
     raise_for_status response ;;
     data <- response_json response ;;
     id_text <- format_int user_id ;;
     app_status <- data_get data "app_status" (PStr "Status Unknown") ;;
     status_text <- format_value app_status ;;
     ret ("User " +:+ id_text +:+ " Status: " +:+ status_text))
    (except
       [ (RequestException, λ e,
          ret ("ERROR: Failed to connect to API or retrieve status. Details: "
               +:+ exn_str e)) ]).

Definition send_user_email (recipient_email subject body : string) : M string :=
  let smtp_server := getenv "MAILTRAP_HOST" in
  let login := getenv "MAILTRAP_LOGIN" in
  let password := getenv "MAILTRAP_PASSWORD" in
  let port := 587 in
  if negb (truthy login) || negb (truthy password) then
    ret "ERROR: Mailtrap credentials (MAILTRAP_HOST/LOGIN/PASSWORD) are not set in environment variables."
  else
    message <- new_MIMEMultipart "alternative" ;;
    let message := setitem message "Subject" subject in
    let message := setitem message "From" SENDER_EMAIL in
    let message := setitem message "To" recipient_email in
    part <- new_MIMEText body "plain" ;;
    let message := attach message part in
    try_except
      (create_default_context ;;
       with_SMTP smtp_server port
         (SMTP_starttls ;;
          SMTP_login login password ;;
          as_string message ;;
          SMTP_sendmail SENDER_EMAIL recipient_email message) ;;
       ret ("SUCCESS: Real email sent to " +:+ recipient_email
            +:+ " with subject '" +:+ subject
            +:+ "' via Mailtrap. Check your Mailtrap Sandbox inbox."))
      (except
         [ (SMTPException, λ e,
            ret ("ERROR: SMTP failed to send email. Check Mailtrap credentials, SENDER_EMAIL, and network. Details: "
                 +:+ exn_str e));
           (Exception, λ e,
            ret ("ERROR: General error during email sending. Details: "
                 +:+ exn_str e)) ]).

End Tools.

End AgentWorkflow.

(** ** Vocabulary of the statements *)

Module Scenario.

Import AgentWorkflow.

(** The URL [get_user_status] asks for. *)
Definition status_url (user_id : Z) : string :=
  API_BASE_URL +:+ "/users/" +:+ decimal user_id +:+ "/status".

(** The message [send_user_email] builds from its arguments. *)
Definition message_for (recipient_email subject body : string) : MIMEMultipart :=
  {| subtype := "alternative";
     headers := [ ("Subject", subject); ("From", SENDER_EMAIL);
                  ("To", recipient_email) ];
     parts := [ {| text := body; text_subtype := "plain" |} ] |}.

(** The calls made before the session is opened. *)
Definition preparation (body : string) : list call :=
  [ MIMEMultipart_call "alternative"; MIMEText_call body "plain";
    create_default_context_call ].

(** The three commands of a session, in the order the tool issues them. *)
Definition session_steps (w : World) (recipient_email subject body : string)
  : list call :=
  [ starttls_call;
    login_call (getenv w "MAILTRAP_LOGIN") (getenv w "MAILTRAP_PASSWORD");
    sendmail_call SENDER_EMAIL recipient_email
      (message_for recipient_email subject body) ].



(** What leaving the [with] block does. *)
Definition session_end : list call := [quit_call; close_call].

(** The four kinds of string [send_user_email] returns. *)
Definition config_error : string :=
  "ERROR: Mailtrap credentials (MAILTRAP_HOST/LOGIN/PASSWORD) are not set in environment variables.".

Definition success_message (recipient_email subject : string) : string :=
  "SUCCESS: Real email sent to " +:+ recipient_email +:+ " with subject '"
  +:+ subject +:+ "' via Mailtrap. Check your Mailtrap Sandbox inbox.".

Definition smtp_error (e : exn) : string :=
  "ERROR: SMTP failed to send email. Check Mailtrap credentials, SENDER_EMAIL, and network. Details: "
  +:+ exn_str e.

Definition general_error (e : exn) : string :=
  "ERROR: General error during email sending. Details: " +:+ exn_str e.

(** The two kinds of string [get_user_status] returns. *)
Definition status_message (user_id : Z) (app_status : pyval) : string :=
  "User " +:+ decimal user_id +:+ " Status: " +:+ py_str app_status.

Definition api_error (e : exn) : string :=
  "ERROR: Failed to connect to API or retrieve status. Details: " +:+ exn_str e.

(** What [SMTP.send] raises when the [SMTP] object has no socket. *)
Definition not_connected : exn :=
  {| exn_type := SMTPServerDisconnected; exn_str := "please run connect() first" |}.

(** An environment variable that is not set, or set to the empty string. *)
Definition absent_or_empty (o : option string) : Prop := o = None ∨ o = Some EmptyString.

(** A world in which the status service answers every request with
    [answer], the mail relay accepts everything, the libraries refuse
    nothing, and the environment is [env]. *)
Definition world (env : gmap string string) (answer : outcome exn Response) : World :=
  {| environ := env;
     requests_get_result := λ _, answer;
     MIMEText_result := λ _ _, None;
     create_default_context_result := None;
     as_string_result := λ _, None;
     connect_result := λ _ _, None;
     starttls_result := None;
     login_result := λ _ _, None;
     sendmail_result := λ _ _ _, None;
     quit_result := None |}.

Definition mailtrap_env : gmap string string :=
  <["MAILTRAP_HOST" := "sandbox.smtp.mailtrap.io"]>
  (<["MAILTRAP_LOGIN" := "user"]>
  (<["MAILTRAP_PASSWORD" := "secret"]> ∅)).

(** The answer of the mock service for user 101. *)
Definition body_101 : gmap string pyval :=
  <["user_id" := PInt 101]>
  (<["app_status" := PStr "Active"]>
  (<["message" := PStr "Status retrieved successfully for user 101."]> ∅)).

Definition answer_101 : Response :=
  {| status_code := 200; reason := "OK"; url := status_url 101;
     json_result := Return (JObject body_101) |}.

(** The answer of the mock service for user 999. *)
Definition answer_999 : Response :=
  {| status_code := 404; reason := "Not Found"; url := status_url 999;
     json_result :=
       Return (JObject (<["detail" := PStr "User with ID 999 not found."]> ∅)) |}.


(** A service that answers 200 with a JSON array. *)
Definition answer_array : Response :=
  {| status_code := 200; reason := "OK"; url := status_url 101;
     json_result := Return (JNotObject "list") |}.

(** A connection that is refused, as [requests] reports it. *)
Definition refused : exn :=
  {| exn_type := ConnectionError; exn_str := "Connection refused" |}.

(** A relay that rejects the message after a successful login. *)
Definition rejecting_relay : World :=
  {| environ := mailtrap_env;
     requests_get_result := λ _, Raise refused;
     MIMEText_result := λ _ _, None;
     create_default_context_result := None;
     as_string_result := λ _, None;
     connect_result := λ _ _, None;
     starttls_result := None;
     login_result := λ _ _, None;
     sendmail_result := λ _ _ _,
       Some {| exn_type := SMTPResponseException; exn_str := "(550, b'rejected')" |};
     quit_result := None |}.

(** An environment with the credentials but without MAILTRAP_HOST. *)
Definition env_without_host : gmap string string :=
  <["MAILTRAP_LOGIN" := "user"]> (<["MAILTRAP_PASSWORD" := "secret"]> ∅).

(** The integer written 1 followed by 4300 zeros, ten to the power 4300:
    the smallest positive integer [str] refuses. *)
Definition huge_id : Z :=
  Z.of_int (Decimal.Pos (Decimal.D1 (Nat.iter 4300 Decimal.D0 Decimal.Nil))).

(** The [ValueError] of an f-string that cannot print its integer. *)
Definition int_limit_error : exn :=
  {| exn_type := ValueError; exn_str := int_limit_message |}.

(** The [str] that holds the one lone surrogate U+D800. *)
Definition lone_surrogate : string :=
  String (Ascii.ascii_of_nat 237)
    (String (Ascii.ascii_of_nat 160)
       (String (Ascii.ascii_of_nat 128) EmptyString)).

(** What [MIMEText] raises for it. *)
Definition surrogates_not_allowed : exn :=
  {| exn_type := UnicodeEncodeError;
     exn_str := "'utf-8' codec can't encode character '\ud800' in position 0: surrogates not allowed" |}.

(** A subject that carries a second header line: "Hi", a line feed, and
    "Bcc: x@y". *)
Definition subject_with_header : string :=
  "Hi" +:+ String (Ascii.ascii_of_nat 10) "Bcc: x@y".

(** What [as_string] raises for a message with that subject. *)
Definition embedded_header : exn :=
  {| exn_type := HeaderParseError;
     exn_str := "header value appears to contain an embedded header: 'Hi\nBcc: x@y'" |}.

(** The world [world env answer] with the [email] library as Python has
    it for these two texts: [MIMEText] refuses the lone surrogate, and
    [as_string] refuses a message whose subject carries a header line. *)
Definition strict_world (env : gmap string string) (answer : outcome exn Response)
  : World :=
  {| environ := env;
     requests_get_result := λ _, answer;
     MIMEText_result := λ text _,
       if bool_decide (text = lone_surrogate) then Some surrogates_not_allowed
       else None;
     create_default_context_result := None;
     as_string_result := λ msg,
       if bool_decide (("Subject", subject_with_header) ∈ headers msg)
       then Some embedded_header else None;
     connect_result := λ _ _, None;
     starttls_result := None;
     login_result := λ _ _, None;
     sendmail_result := λ _ _ _, None;
     quit_result := None |}.

End Scenario.

(** ** streamlit_agent_app.py *)

Module StreamlitApp.

Import AgentWorkflow.

(** *** The tools, as this file defines them again *)

Section Tools.

Variable w : World.

Definition API_BASE_URL : string := "http://127.0.0.1:8001".

Definition SENDER_EMAIL : string := "your-support@example.com".

Definition get_user_status (user_id : Z) : M string :=
  id_text <- format_int user_id ;;
  let endpoint := API_BASE_URL +:+ "/users/" +:+ id_text +:+ "/status" in
  try_except
    (response <- requests_get w endpoint ;;
     raise_for_status response ;;
     data <- response_json response ;;
     id_text <- format_int user_id ;;
     app_status <- data_get data "app_status" (PStr "Status Unknown") ;;
     status_text <- format_value app_status ;;
     ret ("User " +:+ id_text +:+ " Status: " +:+ status_text))
    (except
       [ (RequestException, λ e,
          ret ("ERROR: Failed to connect to API on port 8001. Details: "
               +:+ exn_str e)) ]).

Definition send_user_email (recipient_email subject body : string) : M string :=
  let smtp_server := getenv w "MAILTRAP_HOST" in
  let login := getenv w "MAILTRAP_LOGIN" in
  let password := getenv w "MAILTRAP_PASSWORD" in
  let port := 587 in
  if negb (truthy login) || negb (truthy password) then
    ret "ERROR: Mailtrap credentials are not set (check environment variables)."
  else
    message <- new_MIMEMultipart "alternative" ;;
    let message := setitem message "Subject" subject in
    let message := setitem message "From" SENDER_EMAIL in
    let message := setitem message "To" recipient_email in
    part <- new_MIMEText w body "plain" ;;
    let message := attach message part in
    try_except
      (create_default_context w ;;
       with_SMTP w smtp_server port
         (SMTP_starttls w ;;
          SMTP_login w login password ;;
          as_string w message ;;
          SMTP_sendmail w SENDER_EMAIL recipient_email message) ;;
       ret ("SUCCESS: Real email sent to " +:+ recipient_email
            +:+ " via Mailtrap. Check your Mailtrap Sandbox inbox."))
      (except
         [ (SMTPException, λ e,
            ret ("ERROR: SMTP failed to send email. Check Mailtrap settings/sender email. Details: "
                 +:+ exn_str e));
           (Exception, λ e,
            ret ("ERROR: General error during email sending. Details: "
                 +:+ exn_str e)) ]).

End Tools.

(** *** What the agent streams *)

(** The [content] of a LangChain message: a [str], or a list of content
    blocks, each carried with the text [str()] prints for it. *)
Inductive message_content :=
| Text (s : string)
| Blocks (blocks : list string).

(** Truthiness of a content: the empty string and the empty list are
    falsy. *)
Definition content_truthy (c : message_content) : bool :=
  match c with
  | Text s => negb (bool_decide (s = EmptyString))
  | Blocks blocks => negb (bool_decide (blocks = []))
  end.

(** One entry of [tool_calls]: its ['name'], and the text [str()] prints
    for its ['args'] dict. *)
Record ToolCall := { name : string; args : string }.

(** A message object, through the two attributes [run_agent] looks at;
    [None] stands for an object without the attribute. *)
Record Message := {
  content : option message_content;
  tool_calls : option (list ToolCall)
}.

(** A chunk of the stream: the value under its ["messages"] key, [None]
    when the key is missing. *)
Definition chunk := option (list Message).

(** A compiled agent, through the one method the app calls:
    [stream({"messages": [{"role": "user", "content": question}]},
    stream_mode="values")] yields the chunks, and then ends ([None]) or
    raises ([Some e]). *)
Record Agent := { stream : string → list chunk * option exn }.

(** *** The page *)

(** An entry of [st.session_state.messages]: its ["role"] and its
    ["content"]. *)
Definition entry : Type := string * message_content.

(** The Streamlit calls of one run of the script, in order.  The [with]
    blocks are flattened: [chat_message] and [spinner] mark where a block is
    entered, [spinner_done] where the spinner block is left. *)
Inductive ui :=
| set_page_config (page_title layout : string)
| title (text : string)
| caption (text : string)
| chat_message (role : string)
| markdown (body : message_content)
| chat_input (placeholder : string)
| spinner (text : string)
| spinner_done
| info (text : string)
| error (text : string)
| sidebar_header (text : string)
| sidebar_markdown (text : string).

(** State of a run: [st.session_state.messages] ([None] while the key does
    not exist), which outlives the run, and what the run has drawn. *)
Record page := { messages : option (list entry); drawn : list ui }.

(** What a run of the script meets outside its own code: how the model
    constructor and [create_agent] end, and what [st.chat_input] returns. *)
Record Visit := {
  model_result : option exn;
  create_agent_result : outcome exn Agent;
  chat_input_value : option string
}.

Abbreviation App := (Py.M page exn).

Definition draw (u : ui) : App unit :=
  modify_state (λ p, {| messages := messages p; drawn := drawn p ++ [u] |}).

(** [st.session_state.messages.append(e)]; without the key the attribute
    access raises (the text of the exception is abridged). *)
Definition messages_append (e : entry) : App unit :=
  p <- get_state ;;
  match messages p with
  | Some history =>
      modify_state (λ p, {| messages := Some (history ++ [e]); drawn := drawn p |})
  | None =>
      raise {| exn_type := AttributeError;
               exn_str := "st.session_state has no attribute 'messages'" |}
  end.

(** The [except] clauses of a [try] in the app, tried in order. *)
Fixpoint except_in_app {A} (clauses : list (exn_class * (exn → App A))) (e : exn)
  : option (App A) :=
  match clauses with
  | [] => None
  | (c, h) :: rest => if isinstance e c then Some (h e) else except_in_app rest e
  end.

(** [with st.spinner(text): block]. *)
Definition with_spinner {A} (text : string) (block : App A) : App A :=
  draw (spinner text) ;;
  try_finally block (draw spinner_done).

Section Script.

Variable v : Visit.

(** The text of the sidebar, a literal of the script. *)
Variable sidebar_instructions : string.

(** [setup_agent()], without the cache of [st.cache_resource]. *)
Definition setup_agent : App (option Agent) :=
  model <-
    try_except
      (match model_result v with
       | Some e => raise e
       | None => ret (Some tt)
       end)
      (except_in_app
         [ (Exception, λ e,
            draw (error ("Error initializing Gemini Model. Is GEMINI_API_KEY set? Error: "
                         +:+ exn_str e)) ;;
            ret None) ]) ;;
  match model with
  | None => ret None
  | Some _ =>
      match create_agent_result v with
      | Return agent => ret (Some agent)
      | Raise e => raise e
      end
  end.

(** The body of the [for chunk in ...] loop of [run_agent]: the new value
    of [full_response]. *)
Definition on_chunk (c : chunk) (full_response : message_content)
  : App message_content :=
  match c with
  | Some chunk_messages =>
      match last chunk_messages with
      | Some latest_message =>
          let intermediate :=
            match tool_calls latest_message with
            | Some (first_call :: _) =>
                draw (info ("**🤖 Agent Action:** Calling **" +:+ name first_call
                            +:+ "** with arguments: " +:+ args first_call)) ;;
                ret full_response
            | _ => ret full_response
            end in
          match content latest_message with
          | Some c => if content_truthy c then ret c else intermediate
          | None => intermediate
          end
      | None => ret full_response
      end
  | None => ret full_response
  end.

Fixpoint for_chunks (chunks : list chunk) (full_response : message_content)
  : App message_content :=
  match chunks with
  | [] => ret full_response
  | c :: rest =>
      full_response <- on_chunk c full_response ;;
      for_chunks rest full_response
  end.

Definition run_agent (question : string) (agent_instance : Agent)
  : App message_content :=
  with_spinner "Agent is reasoning and executing steps..."
    (let full_response := Text EmptyString in
     let '(chunks, failure) := stream agent_instance question in
     full_response <- for_chunks chunks full_response ;;
     match failure with
     | Some e => raise e
     | None => ret full_response
     end).

(** [for message in st.session_state.messages: ...]. *)
Fixpoint display (history : list entry) : App unit :=
  match history with
  | [] => ret tt
  | (role, body) :: rest =>
      draw (chat_message role) ;;
      draw (markdown body) ;;
      display rest
  end.

(** One run of the script, from its first line to its last. *)
Definition script : App unit :=
  draw (set_page_config "LangChain Gemini Agent Demo" "wide") ;;
  draw (title "🤖 Multi-Tool Gemini Agent") ;;
  draw (caption "Demonstrating intelligent tool selection (FastAPI & Mailtrap)") ;;
  p <- get_state ;;
  (match messages p with
   | None => modify_state (λ p, {| messages := Some []; drawn := drawn p |})
   | Some _ => ret tt
   end) ;;
  p <- get_state ;;
  display (default [] (messages p)) ;;
  agent <- setup_agent ;;
  (match agent with
   | Some agent_instance =>
       draw (chat_input "Ask the Agent about status (e.g., ID 101) or to send an email.") ;;
       match chat_input_value v with
       | Some prompt =>
           if bool_decide (prompt = EmptyString) then ret tt
           else
             messages_append ("user", Text prompt) ;;
             draw (chat_message "user") ;;
             draw (markdown (Text prompt)) ;;
             draw (chat_message "assistant") ;;
             final_answer <- run_agent prompt agent_instance ;;
             messages_append ("assistant", final_answer) ;;
             draw (markdown final_answer)
       | None => ret tt
       end
   | None => ret tt
   end) ;;
  draw (sidebar_header "Workshop Instructions") ;;
  draw (sidebar_markdown sidebar_instructions).

End Script.

(** The runs of one browser session: each run redraws the page from
    nothing and starts from the [st.session_state] the previous run left,
    also when that run ended with an exception. *)
Fixpoint session (sidebar_instructions : string) (visits : list Visit)
    (state : option (list entry)) : option (list entry) :=
  match visits with
  | [] => state
  | v :: rest =>
      session sidebar_instructions rest
        (messages (script v sidebar_instructions
                     {| messages := state; drawn := [] |}).2)
  end.

End StreamlitApp.

(** ** The status tool in front of the mock service *)

Module Deployment.

Import AgentWorkflow.

(** A value of a response body after the JSON round trip; of the list of
    validation errors only that it is no scalar is kept. *)
Definition decoded (v : MockFastAPI.value) : pyval :=
  match v with
  | MockFastAPI.VInt n => PInt n
  | MockFastAPI.VStr s => PStr s
  | MockFastAPI.VErrors => POther "[...]"
  end.

(** The response [requests] builds from what the mock service sends:
    same status code, the body decoded to a [dict], except for the plain
    text of a 500, which does not decode; [phrase] gives the reason phrase
    of a status code. *)
Definition received (phrase : Z → string) (endpoint : string)
    (sent : MockFastAPI.HTTPResponse) : Response :=
  {| status_code := MockFastAPI.http_status sent;
     reason := phrase (MockFastAPI.http_status sent);
     url := endpoint;
     json_result :=
       if bool_decide (MockFastAPI.http_status sent = 500) then
         Raise {| exn_type := RequestException;
                  exn_str := "Expecting value: line 1 column 1 (char 0)" |}
       else
         Return (JObject (list_to_map (prod_map id decoded
                                         <$> MockFastAPI.http_json sent))) |}.

(** A world in which the mock service, holding [tbl], listens at
    [API_BASE_URL]: the request for the status of [user_id] reaches the
    handler with that identifier; any other request is refused. *)
Definition mock_service_world (env : gmap string string) (phrase : Z → string)
    (tbl : gmap Z string) (user_id : Z) : World :=
  {| environ := env;
     requests_get_result := λ endpoint,
       if bool_decide (endpoint = API_BASE_URL +:+ "/users/" +:+ decimal user_id
                                  +:+ "/status")
       then Return (received phrase endpoint (MockFastAPI.endpoint user_id tbl).1)
       else Raise {| exn_type := ConnectionError; exn_str := "Connection refused" |};
     MIMEText_result := λ _ _, None;
     create_default_context_result := None;
     as_string_result := λ _, None;
     connect_result := λ _ _, None;
     starttls_result := None;
     login_result := λ _ _, None;
     sendmail_result := λ _ _ _, None;
     quit_result := None |}.

End Deployment.

(** ** Further vocabulary of the statements *)

Module MoreScenarios.

Import AgentWorkflow Scenario.

(** A relay that accepts the message and then answers QUIT with an error
    reply, which [SMTP.__exit__] raises as [SMTPResponseException]. *)
Definition relay_failing_at_quit : World :=
  {| environ := mailtrap_env;
     requests_get_result := λ _, Raise refused;
     MIMEText_result := λ _ _, None;
     create_default_context_result := None;
     as_string_result := λ _, None;
     connect_result := λ _ _, None;
     starttls_result := None;
     login_result := λ _ _, None;
     sendmail_result := λ _ _ _, None;
     quit_result :=
       Some {| exn_type := SMTPResponseException; exn_str := "(421, b'closing')" |} |}.

(** A relay whose port is closed: [socket] raises [ConnectionRefusedError],
    an [OSError]. *)
Definition unreachable_relay : World :=
  {| environ := mailtrap_env;
     requests_get_result := λ _, Raise refused;
     MIMEText_result := λ _ _, None;
     create_default_context_result := None;
     as_string_result := λ _, None;
     connect_result := λ _ _,
       Some {| exn_type := OSError; exn_str := "[Errno 111] Connection refused" |};
     starttls_result := None;
     login_result := λ _ _, None;
     sendmail_result := λ _ _ _, None;
     quit_result := None |}.

(** An environment in which MAILTRAP_HOST is set to the empty string. *)
Definition env_with_empty_host : gmap string string :=
  <["MAILTRAP_HOST" := EmptyString]> env_without_host.

(** The strings of the tools of [streamlit_agent_app.py] that differ from
    those of [agent_workflow.py]. *)
Definition app_api_error (e : exn) : string :=
  "ERROR: Failed to connect to API on port 8001. Details: " +:+ exn_str e.

Definition app_config_error : string :=
  "ERROR: Mailtrap credentials are not set (check environment variables).".

Definition app_success_message (recipient_email : string) : string :=
  "SUCCESS: Real email sent to " +:+ recipient_email
  +:+ " via Mailtrap. Check your Mailtrap Sandbox inbox.".

Definition app_smtp_error (e : exn) : string :=
  "ERROR: SMTP failed to send email. Check Mailtrap settings/sender email. Details: "
  +:+ exn_str e.

(** *** Reading a stream and a page *)

Import StreamlitApp.

(** The content a chunk brings: that of its latest message, when the chunk
    has messages and that content is truthy. *)
Definition spoken (c : chunk) : option message_content :=
  match c with
  | Some chunk_messages =>
      match last chunk_messages with
      | Some latest_message =>
          match content latest_message with
          | Some body => if content_truthy body then Some body else None
          | None => None
          end
      | None => None
      end
  | None => None
  end.

(** The first tool call of the latest message of a chunk. *)
Definition first_tool_call (c : chunk) : option ToolCall :=
  match c with
  | Some chunk_messages =>
      match last chunk_messages with
      | Some latest_message =>
          match tool_calls latest_message with
          | Some (first_call :: _) => Some first_call
          | _ => None
          end
      | None => None
      end
  | None => None
  end.

(** The notice for a tool call. *)
Definition notice (call : ToolCall) : string :=
  "**🤖 Agent Action:** Calling **" +:+ name call
  +:+ "** with arguments: " +:+ args call.

(** The notice a chunk gets: one for its first tool call, when it brings no
    content. *)
Definition announced (c : chunk) : option string :=
  match spoken c with
  | Some _ => None
  | None => notice <$> first_tool_call c
  end.

(** The answer a list of chunks leaves: the last content brought, the
    empty string when none was. *)
Definition last_spoken (chunks : list chunk) : message_content :=
  default (Text EmptyString) (last (omap spoken chunks)).

(** How the page shows one entry of the history. *)
Definition shown (e : entry) : list ui := [chat_message e.1; markdown e.2].

(** The chat read off the page: each [markdown] with the role of the chat
    message block it was drawn in. *)
Fixpoint transcript (role : option string) (page_calls : list ui) : list entry :=
  match page_calls with
  | [] => []
  | chat_message r :: rest => transcript (Some r) rest
  | markdown body :: rest =>
      match role with
      | Some r => (r, body) :: transcript None rest
      | None => transcript None rest
      end
  | _ :: rest => transcript role rest
  end.

(** The notices on the page. *)
Definition notices (page_calls : list ui) : list string :=
  omap (λ u, match u with info text => Some text | _ => None end) page_calls.

(** What one run of the script can add to the history: a question, alone
    or followed by an answer. *)
Definition turn (block : list entry) : Prop :=
  ∃ prompt : string,
    prompt ≠ EmptyString
    ∧ (block = [("user", Text prompt)]
       ∨ ∃ answer, block = [("user", Text prompt); ("assistant", answer)]).

(** An agent that looks up the status of user 102 and answers. *)
Definition question_102 : string := "What is the status for ID 102?".

Definition human_102 : Message :=
  {| content := Some (Text question_102); tool_calls := None |}.

Definition ai_calls_tool : Message :=
  {| content := Some (Text EmptyString);
     tool_calls := Some [ {| name := "get_user_status";
                             args := "{'user_id': 102}" |} ] |}.

Definition tool_result_102 : Message :=
  {| content := Some (Text "User 102 Status: Inactive"); tool_calls := None |}.

Definition ai_answers : Message :=
  {| content := Some (Text "The status for ID 102 is Inactive.");
     tool_calls := Some [] |}.

Definition chunks_102 : list chunk :=
  [ Some [human_102];
    Some [human_102; ai_calls_tool];
    Some [human_102; ai_calls_tool; tool_result_102];
    Some [human_102; ai_calls_tool; tool_result_102; ai_answers] ].

Definition status_agent : Agent := {| stream := λ _, (chunks_102, None) |}.

(** An agent whose stream breaks after the tool call. *)
Definition quota_error : exn :=
  {| exn_type := Exception; exn_str := "429 Resource has been exhausted" |}.

Definition failing_agent : Agent :=
  {| stream := λ _, (take 2 chunks_102, Some quota_error) |}.

(** An agent whose last message is the result of the tool. *)
Definition agent_stopping_at_tool : Agent :=
  {| stream := λ _, (take 3 chunks_102, None) |}.

(** What every run draws first, and what a run that reaches its end draws
    last. *)
Definition page_head : list ui :=
  [ set_page_config "LangChain Gemini Agent Demo" "wide";
    title "🤖 Multi-Tool Gemini Agent";
    caption "Demonstrating intelligent tool selection (FastAPI & Mailtrap)" ].

Definition page_foot (sidebar_instructions : string) : list ui :=
  [ sidebar_header "Workshop Instructions";
    sidebar_markdown sidebar_instructions ].

Definition input_box : ui :=
  chat_input "Ask the Agent about status (e.g., ID 101) or to send an email.".

Definition visit_asking (agent : Agent) : Visit :=
  {| model_result := None;
     create_agent_result := Return agent;
     chat_input_value := Some question_102 |}.

Definition visit_without_key : Visit :=
  {| model_result :=
       Some {| exn_type := ValueError; exn_str := "API key required" |};
     create_agent_result := Return status_agent;
     chat_input_value := Some question_102 |}.

Definition blank_page : page := {| messages := None; drawn := [] |}.

End MoreScenarios.


(** * Integers and their decimal text *)

Section Printing.

Import MockFastAPI Scenario.

Lemma str_int_printable (n : Z) : printable n = true → str_int n = Some (decimal n).
Proof. unfold str_int. by intros ->. Qed.

Lemma str_int_unprintable (n : Z) : printable n = false → str_int n = None.
Proof. unfold str_int. by intros ->. Qed.

Lemma str_int_decimal (n : Z) (text : string) :
  str_int n = Some text → text = decimal n.
Proof. unfold str_int. destruct (printable n); by intros [= <-]. Qed.

(** The text of a negative integer is the text of its absolute value after
    a minus sign. *)
Lemma decimal_abs_length (n : Z) :
  (String.length (decimal (Z.abs n)) ≤ String.length (decimal n))%nat.
Proof.
  destruct n as [|p|p]; [done..|].
  change (Z.abs (Z.neg p)) with (Z.pos p).
  unfold decimal, NilZero.string_of_int. cbn [Z.to_int String.length]. lia.
Qed.

(** What the route lets through, [str] prints. *)
Lemma path_accepted_printable (n : Z) : path_accepted n = true → printable n = true.
Proof.
  unfold path_accepted, printable, int_max_str_digits.
  rewrite !Nat.leb_le. pose proof (decimal_abs_length n). lia.
Qed.

Lemma unprintable_not_accepted (n : Z) : printable n = false → path_accepted n = false.
Proof.
  intros Hp. destruct (path_accepted n) eqn:Ha; [|done].
  apply path_accepted_printable in Ha. congruence.
Qed.

Lemma ten_times_grows (k : nat) : Z.of_nat k < Nat.iter k (Z.mul 10) 1.
Proof.
  induction k as [|k IH]; [done|].
  rewrite Nat2Z.inj_succ.
  change (Nat.iter (S k) (Z.mul 10) 1) with (10 * Nat.iter k (Z.mul 10) 1).
  lia.
Qed.

(** [huge_id] is ten to the power 4300. *)
Lemma huge_id_power : huge_id = Nat.iter 4300 (Z.mul 10) 1.
Proof.
  unfold huge_id.
  change (Decimal.Pos (Decimal.D1 (Nat.iter 4300 Decimal.D0 Decimal.Nil)))
    with (Decimal.app_int (Decimal.Pos (Decimal.D1 Decimal.Nil))
            (Nat.iter 4300 Decimal.D0 Decimal.Nil)).
  rewrite DecimalZ.of_int_iter_D0. reflexivity.
Qed.

Lemma huge_id_large : 4300 < huge_id.
Proof. rewrite huge_id_power. apply (ten_times_grows 4300). Qed.

(** Its text has 4301 digits, one more than [str] takes. *)
Lemma huge_id_not_printable : printable huge_id = false.
Proof.
  unfold printable, decimal.
  rewrite Z.abs_eq by (pose proof huge_id_large; lia).
  unfold huge_id. rewrite DecimalZ.to_of. vm_compute. reflexivity.
Qed.

End Printing.

(** * Properties of the mock status service *)

Section MockService.

Import MockFastAPI Scenario.

Implicit Types (tbl : gmap Z string) (user_id : Z) (reqs : list Z).

Example mock_lookup_101 :
  endpoint 101 mock_user_statuses
  = ({| http_status := 200;
        http_json :=
          [ ("user_id", VInt 101);
            ("app_status", VStr "Active");
            ("message", VStr "Status retrieved successfully for user 101.") ] |},
     mock_user_statuses).
Proof. reflexivity. Qed.

Example mock_lookup_minus_7 :
  endpoint (-7) mock_user_statuses
  = ({| http_status := 404;
        http_json := [("detail", VStr "User with ID -7 not found.")] |},
     mock_user_statuses).
Proof. reflexivity. Qed.

Lemma contains_middle (a sub b : string) : contains sub (a +:+ sub +:+ b).
Proof. by exists a, b. Qed.

(** The handler never writes the table. *)
Lemma get_user_app_status_table user_id tbl :
  (get_user_app_status user_id tbl).2 = tbl.
Proof.
  unfold get_user_app_status, format_int, bind, get_state.
  by destruct (tbl !! user_id), (str_int user_id).
Qed.

Lemma endpoint_table user_id tbl : (endpoint user_id tbl).2 = tbl.
Proof.
  unfold endpoint. destruct (path_accepted user_id); [|done].
  pose proof (get_user_app_status_table user_id tbl) as H.
  by destruct (get_user_app_status user_id tbl).
Qed.

(** A run answers each request as a lone request on the starting table
    would be answered, and ends on the starting table. *)
Lemma serve_unfold reqs tbl :
  serve reqs tbl = ((λ user_id, (endpoint user_id tbl).1) <$> reqs, tbl).
Proof.
  induction reqs as [|user_id rest IH]; simpl; [done|].
  pose proof (endpoint_table user_id tbl) as H.
  destruct (endpoint user_id tbl) as [resp tbl']; simpl in *; subst tbl'.
  by rewrite IH.
Qed.

(** The identifiers of the seeded table. *)
Lemma seeded_identifiers user_id :
  is_Some (mock_user_statuses !! user_id) ↔ 101 ≤ user_id ≤ 104.
Proof.
  assert (101 ≤ user_id ≤ 104 ∨ ¬ (101 ≤ user_id ≤ 104)) as [Hin | Hout] by lia.
  - assert (user_id = 101 ∨ user_id = 102 ∨ user_id = 103 ∨ user_id = 104)
      as [-> | [-> | [-> | ->]]] by lia.
    all: split; [intros _; lia|intros _; by eexists].
  - unfold mock_user_statuses.
    rewrite !lookup_insert_ne, lookup_empty by lia.
    split; [by intros [? ?]|done].
Qed.

Lemma seeded_identifiers_accepted user_id :
  is_Some (mock_user_statuses !! user_id) → path_accepted user_id = true.
Proof.
  intros Hin%seeded_identifiers.
  assert (user_id = 101 ∨ user_id = 102 ∨ user_id = 103 ∨ user_id = 104)
    as [-> | [-> | [-> | ->]]] by lia; reflexivity.
Qed.

(** C1. For every identifier present in the status table, the lookup
    answers with HTTP 200 and the body
    [{user_id: the identifier, app_status: the stored status, message: a string}];
    the [app_status] field is the stored string itself.  This holds of the
    table the program has, and of any other content of the table for the
    identifiers the route lets through. *)
Theorem lookup_known_returns_stored_status tbl user_id (status : string) :
  tbl !! user_id = Some status →
  tbl = mock_user_statuses ∨ path_accepted user_id = true →
  ∃ message : string,
    endpoint user_id tbl
    = ({| http_status := 200;
          http_json := [ ("user_id", VInt user_id);
                         ("app_status", VStr status);
                         ("message", VStr message) ] |}, tbl)
    ∧ field "app_status" (http_json (endpoint user_id tbl).1) = Some (VStr status).
Proof.
  intros Hin Hpath.
  assert (path_accepted user_id = true) as Ha.
  { destruct Hpath as [-> | H]; [|done].
    apply seeded_identifiers_accepted. by eexists. }
  exists ("Status retrieved successfully for user " +:+ decimal user_id +:+ ".").
  unfold endpoint, get_user_app_status, format_int, bind, get_state.
  by rewrite Ha, Hin, (str_int_printable _ (path_accepted_printable _ Ha)).
Qed.

Lemma lookup_known_returns_stored_status_witness :
  (mock_user_statuses !! 103 = Some "Pending_Approval"
   ∧ (mock_user_statuses = mock_user_statuses ∨ path_accepted 103 = true))
  ∧ ∃ message : string,
      endpoint 103 mock_user_statuses
      = ({| http_status := 200;
            http_json := [ ("user_id", VInt 103);
                           ("app_status", VStr "Pending_Approval");
                           ("message", VStr message) ] |}, mock_user_statuses)
      ∧ field "app_status" (http_json (endpoint 103 mock_user_statuses).1)
        = Some (VStr "Pending_Approval").
Proof.
  split; [split; [reflexivity|by left]|].
  apply (lookup_known_returns_stored_status mock_user_statuses 103 "Pending_Approval").
  - reflexivity.
  - by left.
Defined.

(** An identifier [str] refuses never gets its 404: the handler raises the
    [ValueError] of its f-string, and the route, which refuses the
    identifier before the handler, answers 422. *)
Lemma lookup_unprintable tbl user_id :
  tbl !! user_id = None →
  printable user_id = false →
  get_user_app_status user_id tbl = (Raise (ValueError int_limit_message), tbl)
  ∧ endpoint user_id tbl
    = ({| http_status := 422; http_json := [("detail", VErrors)] |}, tbl).
Proof.
  intros Hout Hp.
  unfold endpoint, get_user_app_status, format_int, bind, get_state, raise.
  by rewrite (unprintable_not_accepted _ Hp), Hout, (str_int_unprintable _ Hp).
Qed.

Lemma huge_id_not_seeded : mock_user_statuses !! huge_id = None.
Proof.
  pose proof huge_id_large as Hlarge.
  destruct (mock_user_statuses !! huge_id) as [status|] eqn:Hin; [|done].
  assert (101 ≤ huge_id ≤ 104) by (apply seeded_identifiers; by eexists).
  lia.
Qed.

(** C2, as stated, fails for an identifier of more than 4300 digits, such
    as ten to the power 4300: it is not in the table, and the lookup is no
    HTTP 404 error. *)
Lemma huge_identifier_is_not_answered_404 :
  ¬ (∀ user_id,
       mock_user_statuses !! user_id = None →
       ∃ msg : string,
         (get_user_app_status user_id mock_user_statuses).1
         = Raise (Http {| status_code := 404; detail := msg |})
         ∧ http_status (endpoint user_id mock_user_statuses).1 = 404
         ∧ contains (decimal user_id) msg).
Proof.
  intros Hclaim.
  destruct (Hclaim huge_id huge_id_not_seeded) as (msg & Hraise & _).
  destruct (lookup_unprintable mock_user_statuses huge_id huge_id_not_seeded
              huge_id_not_printable) as [Hrun _].
  rewrite Hrun in Hraise. discriminate Hraise.
Qed.

(** C2, amended. For every identifier absent from the status table
    that Python can print (at most 4300 digits), the handler raises an HTTP
    404 error whose detail message contains the identifier; FastAPI answers
    such an error with status 404 and the detail, which is the answer of the
    route for every path it lets through.  For an identifier of more than
    4300 digits the handler raises the [ValueError] of its f-string, and the
    route, which does not call the handler then, answers 422. *)
Theorem lookup_unknown_is_404 tbl user_id :
  tbl !! user_id = None →
  (printable user_id = true →
   ∃ msg : string,
     get_user_app_status user_id tbl
     = (Raise (Http {| status_code := 404; detail := msg |}), tbl)
     ∧ respond (Raise (Http {| status_code := 404; detail := msg |}))
       = {| http_status := 404; http_json := [("detail", VStr msg)] |}
     ∧ contains (decimal user_id) msg
     ∧ (path_accepted user_id = true →
        endpoint user_id tbl
        = ({| http_status := 404; http_json := [("detail", VStr msg)] |}, tbl)))
  ∧ (printable user_id = false →
     get_user_app_status user_id tbl = (Raise (ValueError int_limit_message), tbl)
     ∧ endpoint user_id tbl
       = ({| http_status := 422; http_json := [("detail", VErrors)] |}, tbl)).
Proof.
  intros Hout. split; [|by apply lookup_unprintable].
  intros Hp.
  exists ("User with ID " +:+ decimal user_id +:+ " not found.").
  unfold endpoint, get_user_app_status, format_int, bind, get_state, raise.
  rewrite Hout, (str_int_printable _ Hp). split_and!; [done|done| |].
  - apply contains_middle.
  - by intros ->.
Qed.

Lemma lookup_unknown_is_404_witness :
  (mock_user_statuses !! 105 = None ∧ printable 105 = true
   ∧ path_accepted 105 = true)
  ∧ ∃ msg : string,
      get_user_app_status 105 mock_user_statuses
      = (Raise (Http {| status_code := 404; detail := msg |}), mock_user_statuses)
      ∧ respond (Raise (Http {| status_code := 404; detail := msg |}))
        = {| http_status := 404; http_json := [("detail", VStr msg)] |}
      ∧ contains (decimal 105) msg
      ∧ (path_accepted 105 = true →
         endpoint 105 mock_user_statuses
         = ({| http_status := 404; http_json := [("detail", VStr msg)] |},
            mock_user_statuses)).
Proof.
  split; [split_and!; reflexivity|].
  apply (proj1 (lookup_unknown_is_404 mock_user_statuses 105 eq_refl)).
  reflexivity.
Defined.

(** C8. The seeded table maps 101 to Active, 102 to Inactive, 103 to
    Pending_Approval and 104 to Suspended, and nothing else; a lookup of 101
    answers with [app_status] equal to "Active", and a lookup of 999 is an
    HTTP 404 error. *)
Theorem seeded_table_101_and_999 :
  mock_user_statuses
  = list_to_map [ (101, "Active"); (102, "Inactive");
                  (103, "Pending_Approval"); (104, "Suspended") ]
  ∧ http_status (endpoint 101 mock_user_statuses).1 = 200
  ∧ field "app_status" (http_json (endpoint 101 mock_user_statuses).1)
    = Some (VStr "Active")
  ∧ (get_user_app_status 999 mock_user_statuses).1
    = Raise (Http {| status_code := 404; detail := "User with ID 999 not found." |})
  ∧ http_status (endpoint 999 mock_user_statuses).1 = 404.
Proof. split_and!; reflexivity. Qed.

(** C9. Lookups are reads: whatever requests the service handles, the table
    it ends with is the table it started with, any two requests for the same
    identifier get the same response, and that response is the one a single
    lookup on the starting table gives. *)
Theorem lookup_is_idempotent_and_read_only tbl reqs :
  (serve reqs tbl).2 = tbl
  ∧ (∀ user_id, (get_user_app_status user_id tbl).2 = tbl)
  ∧ (∀ (i j : nat) user_id,
       reqs !! i = Some user_id → reqs !! j = Some user_id →
       (serve reqs tbl).1 !! i = (serve reqs tbl).1 !! j
       ∧ (serve reqs tbl).1 !! i = Some (endpoint user_id tbl).1).
Proof.
  rewrite serve_unfold; simpl.
  split_and!; [done|intros; apply get_user_app_status_table|].
  intros i j user_id Hi Hj.
  by rewrite !list_lookup_fmap, Hi, Hj.
Qed.

Lemma lookup_is_idempotent_and_read_only_witness :
  ([101; 999; 101] !! 0%nat = Some 101 ∧ [101; 999; 101] !! 2%nat = Some 101)
  ∧ (serve [101; 999; 101] mock_user_statuses).1 !! 0%nat
    = (serve [101; 999; 101] mock_user_statuses).1 !! 2%nat
  ∧ (serve [101; 999; 101] mock_user_statuses).1 !! 0%nat
    = Some (endpoint 101 mock_user_statuses).1.
Proof.
  split; [split; reflexivity|].
  apply (proj2 (proj2 (lookup_is_idempotent_and_read_only
                         mock_user_statuses [101; 999; 101]))
           0%nat 2%nat 101); reflexivity.
Defined.

Example serve_three_requests :
  serve [101; 999; 101] mock_user_statuses
  = ([ (endpoint 101 mock_user_statuses).1;
       (endpoint 999 mock_user_statuses).1;
       (endpoint 101 mock_user_statuses).1 ], mock_user_statuses).
Proof. reflexivity. Qed.

End MockService.

(** * Properties of the agent tools *)

Section AgentTools.

Import AgentWorkflow Scenario.

Implicit Types (w : World) (e : exn) (st : state) (user_id : Z).

Lemma isinstance_Exception e : isinstance e Exception = true.
Proof. destruct e as [[] ?]; reflexivity. Qed.

Lemma truthy_false (o : option string) : absent_or_empty o → truthy o = false.
Proof. by intros [-> | ->]. Qed.




Lemma append_assoc (a b c : string) : (a +:+ b) +:+ c = a +:+ b +:+ c.
Proof.
  induction a as [|x a IH]; [done|].
  change (String x ((a +:+ b) +:+ c) = String x (a +:+ b +:+ c)).
  by rewrite IH.
Qed.

Lemma contains_append_l (sub a b : string) : contains sub a → contains sub (a +:+ b).
Proof.
  intros (pre & post & ->). exists pre, (post +:+ b).
  by rewrite !append_assoc.
Qed.


(** A value [str] accepts is printed as [py_str] says. *)
Lemma str_value_py_str (v : pyval) (text : string) :
  str_value v = Some text → text = py_str v.
Proof.
  destruct v as [| [] | n | |]; simpl; try by intros [= <-].
  unfold str_int. destruct (printable n); by intros [= <-].
Qed.

Ltac unfold_tools :=
  unfold send_user_email, get_user_status, with_SMTP, SMTP_init, SMTP_exit,
    SMTP_starttls, SMTP_login, SMTP_sendmail, SMTP_send, SMTP_close,
    new_MIMEMultipart, new_MIMEText, create_default_context, as_string,
    requests_get, raise_for_status, response_json, data_get,
    format_int, format_value, raise_if, log, set_connected;
  unfold try_except, try_finally, bind, modify_state, get_state, ret, raise.

(** One more branch of the run: on [except Exception], which always
    matches, or on the next test the code makes.  The outcome of a whole
    run, which a statement may inspect, is left alone. *)
Ltac exec_step :=
  match goal with
  | |- context [isinstance ?e Exception] => rewrite (isinstance_Exception e)
  | |- context [if ?b then _ else _] => destruct b eqn:?
  | |- context [match ?x with Some _ => _ | None => _ end] => destruct x eqn:?
  | |- context [match ?x with Return _ => _ | Raise _ => _ end] =>
      lazymatch x with fst _ => fail | _ => destruct x eqn:? end
  | |- context [match ?x with JObject _ => _ | JNotObject _ => _ end] => destruct x eqn:?
  end; simpl.

Ltac exec := unfold_tools; simpl; repeat exec_step.

(** An identifier [str] refuses stops the status tool at its first line:
    the [ValueError] leaves the tool, and no request is made. *)
Lemma get_user_status_unprintable w user_id st :
  printable user_id = false →
  get_user_status w user_id st = (Raise int_limit_error, st).
Proof.
  intros Hp. unfold get_user_status, format_int, bind, raise.
  by rewrite (str_int_unprintable _ Hp).
Qed.

(** With an identifier [str] accepts, the status tool makes its one request
    first, and nothing after it. *)
Lemma get_user_status_calls w user_id :
  printable user_id = true →
  calls (get_user_status w user_id start).2 = [requests_get_call (status_url user_id)].
Proof.
  intros Hp. unfold get_user_status, format_int.
  rewrite (str_int_printable _ Hp). exec; reflexivity.
Qed.

(** The run of the status tool, case by case. *)
Lemma get_user_status_run w user_id :
  printable user_id = true →
  (get_user_status w user_id start).1
  = match requests_get_result w (status_url user_id) with
    | Raise e =>
        if isinstance e RequestException then Return (api_error e) else Raise e
    | Return r =>
        if bool_decide (400 ≤ status_code r < 500) then
          Return (api_error
            {| exn_type := HTTPError;
               exn_str := decimal (status_code r) +:+ " Client Error: "
                          +:+ reason r +:+ " for url: " +:+ url r |})
        else if bool_decide (500 ≤ status_code r < 600) then
          Return (api_error
            {| exn_type := HTTPError;
               exn_str := decimal (status_code r) +:+ " Server Error: "
                          +:+ reason r +:+ " for url: " +:+ url r |})
        else
          match json_result r with
          | Raise e =>
              if isinstance e RequestException then Return (api_error e) else Raise e
          | Return (JObject items) =>
              let app_status := default (PStr "Status Unknown") (items !! "app_status") in
              if bool_decide (is_Some (str_value app_status))
              then Return (status_message user_id app_status)
              else Raise int_limit_error
          | Return (JNotObject type_name) =>
              Raise {| exn_type := AttributeError;
                       exn_str := "'" +:+ type_name
                                  +:+ "' object has no attribute 'get'" |}
          end
    end.
Proof.
  intros Hp. unfold get_user_status, format_int, format_value, status_url.
  rewrite (str_int_printable _ Hp).
  unfold_tools; simpl.
  destruct (requests_get_result w _) as [r | e]; simpl.
  - repeat case_bool_decide; simpl; try reflexivity.
    destruct (json_result r) as [[items | type_name] | e]; simpl.
    + destruct (str_value _) as [text|] eqn:Htext; simpl.
      * apply str_value_py_str in Htext. by subst text.
      * reflexivity.
    + reflexivity.
    + by destruct (isinstance e RequestException).
  - by destruct (isinstance e RequestException).
Qed.

(** A run of the email tool that raises is one whose body [MIMEText]
    refused, before the [try]; every other run returns one of the four
    strings. *)
Lemma send_user_email_result w (recipient_email subject body : string) :
  match (send_user_email w recipient_email subject body start).1 with
  | Raise e => MIMEText_result w body "plain" = Some e
  | Return s =>
      s = config_error
      ∨ s = success_message recipient_email subject
      ∨ (∃ e, isinstance e SMTPException = true ∧ s = smtp_error e)
      ∨ (∃ e, isinstance e SMTPException = false ∧ s = general_error e)
  end.
Proof.
  exec.
  all: try done.
  all: first [ by left | by right; left
             | by right; right; left; eexists; split; [|reflexivity]
             | by right; right; right; eexists; split; [|reflexivity]
             | by right; right; left;
               exists not_connected ].
Qed.

(** C3. When MAILTRAP_LOGIN or MAILTRAP_PASSWORD is absent or empty,
    [send_user_email] returns at once a string that begins with "ERROR:",
    and makes no call at all: no message is built, no SMTP session is
    opened, nothing is authenticated or sent. *)
Theorem missing_credentials_fail_before_any_call
    w (recipient_email subject body : string) st :
  absent_or_empty (getenv w "MAILTRAP_LOGIN")
  ∨ absent_or_empty (getenv w "MAILTRAP_PASSWORD") →
  send_user_email w recipient_email subject body st = (Return config_error, st)
  ∧ startswith "ERROR:" config_error = true
  ∧ calls (send_user_email w recipient_email subject body st).2 = calls st
  ∧ (send_user_email w recipient_email subject body start).2 = start.
Proof.
  intros Hmissing.
  assert (∀ st', send_user_email w recipient_email subject body st'
                 = (Return config_error, st')) as Hrun.
  { intros st'. unfold send_user_email.
    destruct Hmissing as [H | H]; apply truthy_false in H; rewrite H; simpl.
    - reflexivity.
    - by rewrite orb_true_r. }
  rewrite !Hrun. done.
Qed.

Lemma missing_credentials_fail_before_any_call_witness :
  (absent_or_empty (getenv (world ∅ (Raise refused)) "MAILTRAP_LOGIN")
   ∨ absent_or_empty (getenv (world ∅ (Raise refused)) "MAILTRAP_PASSWORD"))
  ∧ send_user_email (world ∅ (Raise refused)) "bill@example.com" "Status Update"
      "Your request has been processed." start
    = (Return config_error, start).
Proof.
  split; [by left; left|].
  apply (missing_credentials_fail_before_any_call (world ∅ (Raise refused))
           "bill@example.com" "Status Update" "Your request has been processed."
           start).
  by left; left.
Defined.

Lemma starts_with_ERROR_api e : startswith "ERROR:" (api_error e) = true.
Proof. reflexivity. Qed.

Lemma startswith_append (p s : string) : startswith p (p +:+ s) = true.
Proof.
  unfold startswith. induction p as [|a p IH]; simpl.
  - by destruct s.
  - by destruct (Ascii.ascii_dec a a).
Qed.

Lemma starts_with_User user_id v : startswith "User " (status_message user_id v) = true.
Proof. apply startswith_append. Qed.

Lemma not_marked_User (s : string) :
  startswith "ERROR:" ("User " +:+ s) = false
  ∧ startswith "SUCCESS:" ("User " +:+ s) = false.
Proof. split; reflexivity. Qed.

(** C4, as stated, fails: a successful status lookup returns a string that
    begins with neither "ERROR:" nor "SUCCESS:". *)
Lemma status_lookup_success_has_no_SUCCESS_marker :
  ¬ ((∀ w user_id (s : string),
        (get_user_status w user_id start).1 = Return s →
        startswith "ERROR:" s = true ∨ startswith "SUCCESS:" s = true)
     ∧ (∀ w (recipient_email subject body s : string),
          (send_user_email w recipient_email subject body start).1 = Return s →
          startswith "ERROR:" s = true ∨ startswith "SUCCESS:" s = true)).
Proof.
  intros [Hstatus _].
  destruct (Hstatus (world mailtrap_env (Return answer_101)) 101
              "User 101 Status: Active" eq_refl) as [H | H];
    vm_compute in H; discriminate H.
Qed.

(** C4, amended. Every string [send_user_email] returns begins with
    "ERROR:" or with "SUCCESS:"; every string [get_user_status] returns
    begins with "ERROR:" or, when the lookup succeeded, with "User "; and no
    string begins with two of these markers, so the prefix alone tells the
    outcomes apart. *)
Theorem tool_results_begin_with_a_marker w :
  (∀ user_id (s : string),
     (get_user_status w user_id start).1 = Return s →
     (startswith "ERROR:" s = true ∧ startswith "User " s = false
      ∧ ∃ e, s = api_error e)
     ∨ (startswith "User " s = true ∧ startswith "ERROR:" s = false
        ∧ ∃ v, s = status_message user_id v))
  ∧ (∀ (recipient_email subject body s : string),
       (send_user_email w recipient_email subject body start).1 = Return s →
       (startswith "ERROR:" s = true ∧ startswith "SUCCESS:" s = false)
       ∨ (startswith "SUCCESS:" s = true ∧ startswith "ERROR:" s = false
          ∧ s = success_message recipient_email subject)).
Proof.
  split.
  - intros user_id s.
    destruct (printable user_id) eqn:Hp.
    2: { by rewrite (get_user_status_unprintable w user_id start Hp). }
    rewrite (get_user_status_run w user_id Hp). cbv zeta.
    repeat case_match; intros [= <-].
    all: first [ by left; split_and!; [| |eexists]
               | right; split_and!;
                 [apply starts_with_User | apply not_marked_User | by eexists] ].
  - intros recipient_email subject body s Hs.
    pose proof (send_user_email_result w recipient_email subject body) as Hkind.
    rewrite Hs in Hkind.
    destruct Hkind as [-> | [-> | [(e & _ & ->) | (e & _ & ->)]]].
    all: first [ by left | by right ].
Qed.

Lemma tool_results_begin_with_a_marker_witness :
  ((get_user_status (world mailtrap_env (Return answer_999)) 999 start).1
   = Return (api_error
       {| exn_type := HTTPError;
          exn_str := "404 Client Error: Not Found for url: http://127.0.0.1:8001/users/999/status" |})
   ∧ (send_user_email rejecting_relay "bill@example.com" "Status Update" "Hi" start).1
     = Return (smtp_error {| exn_type := SMTPResponseException;
                             exn_str := "(550, b'rejected')" |}))
  ∧ ((startswith "ERROR:"
        (smtp_error {| exn_type := SMTPResponseException;
                       exn_str := "(550, b'rejected')" |}) = true
      ∧ startswith "SUCCESS:"
          (smtp_error {| exn_type := SMTPResponseException;
                         exn_str := "(550, b'rejected')" |}) = false)
     ∨ (startswith "SUCCESS:"
          (smtp_error {| exn_type := SMTPResponseException;
                         exn_str := "(550, b'rejected')" |}) = true
        ∧ startswith "ERROR:"
            (smtp_error {| exn_type := SMTPResponseException;
                           exn_str := "(550, b'rejected')" |}) = false
        ∧ smtp_error {| exn_type := SMTPResponseException;
                        exn_str := "(550, b'rejected')" |}
          = success_message "bill@example.com" "Status Update")).
Proof.
  split; [split; reflexivity|].
  apply (proj2 (tool_results_begin_with_a_marker rejecting_relay)
           "bill@example.com" "Status Update" "Hi").
  reflexivity.
Defined.

(** A refused connection and a timeout are [RequestException]s. *)
Lemma transport_errors_are_RequestExceptions e :
  exn_type e = ConnectionError ∨ exn_type e = Timeout →
  isinstance e RequestException = true.
Proof. unfold isinstance. by intros [-> | ->]. Qed.




Example status_lookup_101 :
  get_user_status (world mailtrap_env (Return answer_101)) 101 start
  = (Return "User 101 Status: Active",
     {| calls := [requests_get_call "http://127.0.0.1:8001/users/101/status"];
        connected := false |}).
Proof. reflexivity. Qed.

Example status_lookup_refused :
  get_user_status (world mailtrap_env (Raise refused)) 101 start
  = (Return "ERROR: Failed to connect to API or retrieve status. Details: Connection refused",
     {| calls := [requests_get_call "http://127.0.0.1:8001/users/101/status"];
        connected := false |}).
Proof. reflexivity. Qed.

(** A body [MIMEText] refuses stops the email tool before its [try]: the
    exception leaves the tool, after the two constructors were called and
    before anything touches the network. *)
Lemma send_user_email_refused_body w (recipient_email subject body : string) e :
  truthy (getenv w "MAILTRAP_LOGIN") = true →
  truthy (getenv w "MAILTRAP_PASSWORD") = true →
  MIMEText_result w body "plain" = Some e →
  send_user_email w recipient_email subject body start
  = (Raise e,
     {| calls := [MIMEMultipart_call "alternative"; MIMEText_call body "plain"];
        connected := false |}).
Proof.
  intros Hlogin Hpassword Hmime. unfold send_user_email.
  rewrite Hlogin, Hpassword. simpl.
  unfold_tools. simpl. by rewrite Hmime.
Qed.

Example email_with_lone_surrogate :
  send_user_email (strict_world mailtrap_env (Raise refused))
    "bill@example.com" "Status Update" lone_surrogate start
  = (Raise surrogates_not_allowed,
     {| calls := [ MIMEMultipart_call "alternative";
                   MIMEText_call lone_surrogate "plain" ];
        connected := false |}).
Proof. reflexivity. Qed.

Example email_with_header_in_subject :
  send_user_email (strict_world mailtrap_env (Raise refused))
    "bill@example.com" subject_with_header "Hi" start
  = (Return (general_error embedded_header),
     {| calls := preparation "Hi"
                 ++ [ SMTP_call (Some "sandbox.smtp.mailtrap.io") 587;
                      starttls_call;
                      login_call (Some "user") (Some "secret") ]
                 ++ session_end;
        connected := false |}).
Proof. reflexivity. Qed.

(** C6, where the code departs from it. Both tools raise to their caller
    what their handlers do not cover.  [get_user_status] catches
    [RequestException] only: when the service answers 200 with a JSON
    array, [data.get] raises [AttributeError], and the tool raises it; and
    an identifier of more than 4300 digits raises [ValueError] before the
    [try].  [send_user_email] builds its message before the [try]: a body
    with a lone surrogate raises [UnicodeEncodeError] out of the tool.
    What is raised inside the [try] of [send_user_email] is returned as a
    string: whenever [MIMEText] accepts the body, the tool returns the
    configuration error, the success message, the SMTP error string naming
    an [SMTPException], or the general error string for any other
    exception. *)
Theorem tools_raise_what_their_handlers_miss :
  get_user_status (world mailtrap_env (Return answer_array)) 101 start
  = (Raise {| exn_type := AttributeError;
              exn_str := "'list' object has no attribute 'get'" |},
     {| calls := [requests_get_call (status_url 101)]; connected := false |})
  ∧ (∀ w, get_user_status w huge_id start = (Raise int_limit_error, start))
  ∧ send_user_email (strict_world mailtrap_env (Raise refused))
      "bill@example.com" "Status Update" lone_surrogate start
    = (Raise surrogates_not_allowed,
       {| calls := [ MIMEMultipart_call "alternative";
                     MIMEText_call lone_surrogate "plain" ];
          connected := false |})
  ∧ (∀ w (recipient_email subject body : string),
       MIMEText_result w body "plain" = None →
       ∃ s : string,
         (send_user_email w recipient_email subject body start).1 = Return s
         ∧ (s = config_error
            ∨ s = success_message recipient_email subject
            ∨ (∃ e, isinstance e SMTPException = true ∧ s = smtp_error e)
            ∨ (∃ e, isinstance e SMTPException = false ∧ s = general_error e))).
Proof.
  split_and!.
  - reflexivity.
  - intros w. apply get_user_status_unprintable, huge_id_not_printable.
  - reflexivity.
  - intros w recipient_email subject body Hmime.
    pose proof (send_user_email_result w recipient_email subject body) as Hkind.
    destruct (send_user_email w recipient_email subject body start).1 as [s | e].
    + by exists s.
    + congruence.
Qed.





Example email_sent :
  send_user_email (world mailtrap_env (Raise refused))
    "bill@example.com" "Status Update" "Your request has been processed." start
  = (Return "SUCCESS: Real email sent to bill@example.com with subject 'Status Update' via Mailtrap. Check your Mailtrap Sandbox inbox.",
     {| calls :=
          [ MIMEMultipart_call "alternative";
            MIMEText_call "Your request has been processed." "plain";
            create_default_context_call;
            SMTP_call (Some "sandbox.smtp.mailtrap.io") 587;
            starttls_call;
            login_call (Some "user") (Some "secret");
            sendmail_call "your-support@example.com" "bill@example.com"
              {| subtype := "alternative";
                 headers := [ ("Subject", "Status Update");
                              ("From", "your-support@example.com");
                              ("To", "bill@example.com") ];
                 parts := [ {| text := "Your request has been processed.";
                               text_subtype := "plain" |} ] |};
            quit_call; close_call ];
        connected := false |}).
Proof. reflexivity. Qed.

(** Leaving a [with smtplib.SMTP(...)] block releases the session whatever
    the block did. *)
Lemma with_SMTP_releases {A} w (host : option string) (port : Z) (block : M A)
    st (r : outcome exn A) st' :
  connected st = false →
  with_SMTP w host port block st = (r, st') →
  connected st' = false.
Proof.
  intros Hst. unfold_tools. simpl.
  destruct (truthy host); simpl.
  - destruct (connect_result w host port); simpl.
    + by intros [= <- <-].
    + destruct (block _) as [r1 st1]. repeat exec_step; by intros [= <- <-].
  - destruct (block _) as [r1 st1]. repeat exec_step; by intros [= <- <-].
Qed.




End AgentTools.

(** * Further properties of the mock status service *)

Section SeededTable.

Import MockFastAPI.

(** X1. With the seeded table the service knows exactly the identifiers
    101 to 104: it answers 200 for these, 404 for every other integer whose
    decimal text the route accepts (at most 4300 characters), negative
    ones and zero included, 422 for every integer of more than 4300 digits,
    and never with another status code. *)
Theorem seeded_service_knows_exactly_101_to_104 (user_id : Z) :
  (is_Some (mock_user_statuses !! user_id) ↔ 101 ≤ user_id ≤ 104)
  ∧ (101 ≤ user_id ≤ 104 →
     http_status (endpoint user_id mock_user_statuses).1 = 200)
  ∧ (¬ (101 ≤ user_id ≤ 104) → path_accepted user_id = true →
     http_status (endpoint user_id mock_user_statuses).1 = 404)
  ∧ (printable user_id = false →
     http_status (endpoint user_id mock_user_statuses).1 = 422)
  ∧ http_status (endpoint user_id mock_user_statuses).1 ∈ [200; 404; 422].
Proof.
  pose proof (seeded_identifiers user_id) as Hseeded.
  assert (101 ≤ user_id ≤ 104 →
          http_status (endpoint user_id mock_user_statuses).1 = 200) as Hknown.
  { intros Hin.
    assert (user_id = 101 ∨ user_id = 102 ∨ user_id = 103 ∨ user_id = 104)
      as [-> | [-> | [-> | ->]]] by lia; reflexivity. }
  assert (¬ (101 ≤ user_id ≤ 104) → path_accepted user_id = true →
          http_status (endpoint user_id mock_user_statuses).1 = 404) as Hunknown.
  { intros Hout Ha.
    assert (mock_user_statuses !! user_id = None) as Hnone.
    { destruct (mock_user_statuses !! user_id) eqn:Hlook; [|done].
      destruct Hout. apply Hseeded. by eexists. }
    unfold endpoint, get_user_app_status, format_int, bind, get_state, raise.
    by rewrite Ha, Hnone, (str_int_printable _ (path_accepted_printable _ Ha)). }
  assert (path_accepted user_id = false →
          http_status (endpoint user_id mock_user_statuses).1 = 422) as Hrefused.
  { intros Ha. unfold endpoint. by rewrite Ha. }
  split_and!; [done|done|done| |].
  - intros Hp. by apply Hrefused, unprintable_not_accepted.
  - destruct (path_accepted user_id) eqn:Ha.
    + destruct (decide (101 ≤ user_id ≤ 104)) as [Hin | Hout].
      * rewrite (Hknown Hin). apply list_elem_of_here.
      * rewrite (Hunknown Hout eq_refl).
        apply list_elem_of_further, list_elem_of_here.
    + rewrite (Hrefused eq_refl).
      do 2 apply list_elem_of_further. apply list_elem_of_here.
Qed.

Example seeded_service_refuses_huge_id :
  endpoint Scenario.huge_id mock_user_statuses
  = ({| http_status := 422; http_json := [("detail", VErrors)] |},
     mock_user_statuses).
Proof.
  apply lookup_unprintable;
    [apply huge_id_not_seeded|apply huge_id_not_printable].
Qed.

End SeededTable.

(** * Further properties of the tools of agent_workflow.py *)

Section ToolsFurther.

Import AgentWorkflow Scenario MoreScenarios.

Implicit Types (w : World) (e : exn) (st : state) (user_id : Z).

Ltac unfold_run :=
  unfold send_user_email, get_user_status, StreamlitApp.send_user_email,
    StreamlitApp.get_user_status, with_SMTP, SMTP_init, SMTP_exit,
    SMTP_starttls, SMTP_login, SMTP_sendmail, SMTP_send, SMTP_close,
    new_MIMEMultipart, new_MIMEText, create_default_context, as_string,
    requests_get, raise_for_status, response_json, data_get,
    format_int, format_value, raise_if, log, set_connected;
  unfold try_except, try_finally, bind, modify_state, get_state, ret, raise.

Ltac branch :=
  match goal with
  | |- context [isinstance ?e Exception] => rewrite (isinstance_Exception e)
  | H : ?x = _ |- context [match ?x with _ => _ end] => rewrite H
  | H : ?x = _ |- context [if ?x then _ else _] => rewrite H
  | |- context [if ?b then _ else _] => destruct b eqn:?
  | |- context [match ?x with Some _ => _ | None => _ end] => destruct x eqn:?
  | |- context [match ?x with Return _ => _ | Raise _ => _ end] => destruct x eqn:?
  | |- context [match ?x with JObject _ => _ | JNotObject _ => _ end] => destruct x eqn:?
  end; simpl.

Ltac run := unfold_run; simpl; repeat branch.

Lemma decimal_inj (a b : Z) : decimal a = decimal b → a = b.
Proof.
  unfold decimal. intros H. apply DecimalZ.to_int_inj.
  assert (∀ z, NilZero.int_of_string (NilZero.string_of_int (Z.to_int z))
               = Some (Z.to_int z)) as Hparse.
  { intros z. apply NilZero.isi; destruct z; simpl; try discriminate.
    - intros [= Hnil]. by apply DecimalPos.Unsigned.to_uint_nonnil in Hnil.
    - intros [= Hnil]. by apply DecimalPos.Unsigned.to_uint_nonnil in Hnil. }
  apply (f_equal NilZero.int_of_string) in H.
  rewrite !Hparse in H. by injection H.
Qed.

Lemma length_append (s t : string) :
  String.length (s +:+ t) = (String.length s + String.length t)%nat.
Proof.
  induction s as [|c s IH]; [done|].
  change (S (String.length (s +:+ t)) = S (String.length s + String.length t)).
  by rewrite IH.
Qed.

Lemma append_cancel_r (s1 s2 t : string) : s1 +:+ t = s2 +:+ t → s1 = s2.
Proof.
  revert s2. induction s1 as [|c s1 IH]; intros [|c' s2] H.
  - done.
  - apply (f_equal String.length) in H.
    change (String c' s2 +:+ t) with (String c' (s2 +:+ t)) in H.
    simpl in H. rewrite !length_append in H. simpl in H. lia.
  - apply (f_equal String.length) in H.
    change (String c s1 +:+ t) with (String c (s1 +:+ t)) in H.
    simpl in H. rewrite !length_append in H. simpl in H. lia.
  - change (String c (s1 +:+ t) = String c' (s2 +:+ t)) in H.
    injection H as -> H. f_equal. by apply IH.
Qed.

Lemma status_url_inj (a b : Z) : status_url a = status_url b → a = b.
Proof.
  unfold status_url. intros H.
  do 2 apply String.app_inj in H.
  by apply decimal_inj, (append_cancel_r _ _ "/status").
Qed.

(** X2. The request of [get_user_status] names its user: a call for an
    identifier [str] prints (at most 4300 digits) issues one request, and
    any call that issues the same request was made for the same identifier,
    so a status is never fetched for another user than the one asked for.
    A call for a longer identifier issues no request at all. *)
Theorem status_requests_tell_users_apart w w' (a b : Z) :
  printable a = true →
  calls (get_user_status w a start).2 = calls (get_user_status w' b start).2 →
  a = b.
Proof.
  intros Ha. rewrite (get_user_status_calls w a Ha).
  destruct (printable b) eqn:Hb.
  - rewrite (get_user_status_calls w' b Hb). intros H.
    apply status_url_inj. congruence.
  - by rewrite (get_user_status_unprintable w' b start Hb).
Qed.

Lemma status_requests_tell_users_apart_witness :
  (printable 101 = true
   ∧ calls (get_user_status (world mailtrap_env (Return answer_101)) 101 start).2
     = calls (get_user_status (world mailtrap_env (Raise refused)) 101 start).2)
  ∧ 101 = 101.
Proof.
  split; [split; reflexivity|].
  apply (status_requests_tell_users_apart
           (world mailtrap_env (Return answer_101))
           (world mailtrap_env (Raise refused)) 101 101); reflexivity.
Defined.

(** X3. What [get_user_status] raises is never a [RequestException], and
    it comes from one of five places.  Before the [try]: the f-string that
    builds the URL raised [ValueError] for an identifier of more than 4300
    digits, and no request was made.  Inside the [try], after the one
    request: [requests.get] raised it; or the answer was not a 4xx or 5xx
    one and decoding its body raised it; or the decoded body was not a
    [dict], and it is the [AttributeError] of [data.get]; or the value of
    [app_status] is an integer the f-string of the result cannot print. *)
Theorem status_lookup_raises_only_what_it_does_not_catch w user_id e :
  (get_user_status w user_id start).1 = Raise e →
  isinstance e RequestException = false
  ∧ ((printable user_id = false ∧ e = int_limit_error
      ∧ (get_user_status w user_id start).2 = start)
     ∨ (printable user_id = true
        ∧ calls (get_user_status w user_id start).2
          = [requests_get_call (status_url user_id)]
        ∧ (requests_get_result w (status_url user_id) = Raise e
           ∨ ∃ r : Response,
               requests_get_result w (status_url user_id) = Return r
               ∧ ¬ (400 ≤ status_code r < 600)
               ∧ (json_result r = Raise e
                  ∨ (∃ type_name : string,
                       json_result r = Return (JNotObject type_name)
                       ∧ e = {| exn_type := AttributeError;
                                exn_str := "'" +:+ type_name
                                           +:+ "' object has no attribute 'get'" |})
                  ∨ (∃ items : gmap string pyval,
                       json_result r = Return (JObject items)
                       ∧ str_value (default (PStr "Status Unknown")
                                      (items !! "app_status")) = None
                       ∧ e = int_limit_error))))).
Proof.
  destruct (printable user_id) eqn:Hp.
  2: { rewrite (get_user_status_unprintable w user_id start Hp).
       intros [= <-]. split; [done|]. by left. }
  rewrite (get_user_status_run w user_id Hp).
  pose proof (get_user_status_calls w user_id Hp) as Hcalls.
  destruct (requests_get_result w (status_url user_id)) as [r | e'] eqn:Hget.
  - repeat case_bool_decide; try done.
    assert (¬ (400 ≤ status_code r < 600)) as Hcode by lia.
    destruct (json_result r) as [[items | type_name] | e'] eqn:Hjson.
    + cbv zeta. case_bool_decide as Hshown; [done|].
      intros [= <-]. split; [done|]. right. split_and!; [done..|].
      right. exists r. split_and!; [done..|].
      right; right. exists items. split_and!; [done| |done].
      destruct (str_value _) eqn:Htext; [|done].
      destruct Hshown. by eexists.
    + intros [= <-]. split; [done|]. right. split_and!; [done..|].
      right. exists r. split_and!; [done..|].
      right; left. by exists type_name.
    + destruct (isinstance e' RequestException) eqn:He'; [done|].
      intros [= <-]. split; [done|]. right. split_and!; [done..|].
      right. exists r. split_and!; [done..|].
      by left.
  - destruct (isinstance e' RequestException) eqn:He'; [done|].
    intros [= <-]. split; [done|]. right. split_and!; [done..|]. by left.
Qed.

Lemma status_lookup_raises_only_what_it_does_not_catch_witness :
  (get_user_status (world mailtrap_env (Return answer_array)) 101 start).1
  = Raise {| exn_type := AttributeError;
             exn_str := "'list' object has no attribute 'get'" |}
  ∧ isinstance {| exn_type := AttributeError;
                  exn_str := "'list' object has no attribute 'get'" |}
      RequestException = false.
Proof.
  split; [reflexivity|].
  apply (status_lookup_raises_only_what_it_does_not_catch
           (world mailtrap_env (Return answer_array)) 101).
  reflexivity.
Defined.

(** X4. [send_user_email] reports success only for a message the relay
    took: when the result begins with "SUCCESS:", both credentials and the
    host were set, the connection, STARTTLS, the login and the send all
    returned without raising, the send was the third command of the
    session, and QUIT either returned or found the connection gone.  The
    message and the SSL context were built, and the message was rendered,
    without raising. *)
Theorem success_means_the_relay_took_the_message
    w (recipient_email subject body s : string) st :
  send_user_email w recipient_email subject body start = (Return s, st) →
  startswith "SUCCESS:" s = true →
  let host := getenv w "MAILTRAP_HOST" in
  let login := getenv w "MAILTRAP_LOGIN" in
  let password := getenv w "MAILTRAP_PASSWORD" in
  s = success_message recipient_email subject
  ∧ truthy login = true ∧ truthy password = true ∧ truthy host = true
  ∧ connect_result w host 587 = None
  ∧ starttls_result w = None
  ∧ login_result w login password = None
  ∧ sendmail_result w SENDER_EMAIL recipient_email
      (message_for recipient_email subject body) = None
  ∧ (quit_result w = None
     ∨ ∃ e, quit_result w = Some e ∧ isinstance e SMTPServerDisconnected = true)
  ∧ calls st = preparation body ++ [SMTP_call host 587]
               ++ session_steps w recipient_email subject body ++ session_end
  ∧ MIMEText_result w body "plain" = None
  ∧ create_default_context_result w = None
  ∧ as_string_result w (message_for recipient_email subject body) = None.
Proof.
  unfold send_user_email.
  destruct (truthy (getenv w "MAILTRAP_LOGIN")) eqn:Hlogin; simpl;
    [|by intros [= <- <-]].
  destruct (truthy (getenv w "MAILTRAP_PASSWORD")) eqn:Hpassword; simpl;
    [|by intros [= <- <-]].
  run.
  all: change (attach _ _) with (message_for recipient_email subject body) in *.
  all: intros [= <- <-]; try (intros [=]; fail); intros _; simpl.
  all: split_and!; try done.
  all: first [ by left | right; by eexists ].
Qed.

Lemma success_means_the_relay_took_the_message_witness :
  (send_user_email (world mailtrap_env (Raise refused))
     "bill@example.com" "Status Update" "Hi" start
   = (Return (success_message "bill@example.com" "Status Update"),
      {| calls := preparation "Hi"
                  ++ [SMTP_call (Some "sandbox.smtp.mailtrap.io") 587]
                  ++ session_steps (world mailtrap_env (Raise refused))
                       "bill@example.com" "Status Update" "Hi"
                  ++ session_end;
         connected := false |})
   ∧ startswith "SUCCESS:" (success_message "bill@example.com" "Status Update")
     = true)
  ∧ sendmail_result (world mailtrap_env (Raise refused)) SENDER_EMAIL
      "bill@example.com" (message_for "bill@example.com" "Status Update" "Hi")
    = None.
Proof.
  split; [split; reflexivity|].
  apply (success_means_the_relay_took_the_message
           (world mailtrap_env (Raise refused))
           "bill@example.com" "Status Update" "Hi"
           (success_message "bill@example.com" "Status Update")
           {| calls := preparation "Hi"
                       ++ [SMTP_call (Some "sandbox.smtp.mailtrap.io") 587]
                       ++ session_steps (world mailtrap_env (Raise refused))
                            "bill@example.com" "Status Update" "Hi"
                       ++ session_end;
              connected := false |});
    reflexivity.
Defined.


(** X5. Leaving the session can undo a success.  When the message and
    the SSL context were built, the message was rendered, the relay took
    it, and QUIT then raises, [send_user_email] returns "SUCCESS:" only if
    the exception is an [SMTPServerDisconnected], which [__exit__] ignores;
    any other exception is reported through the "ERROR:" strings, although
    the message was sent.  The session is closed either way. *)
Theorem failed_QUIT_reports_a_sent_message_as_an_error
    w (recipient_email subject body : string) e :
  let host := getenv w "MAILTRAP_HOST" in
  let login := getenv w "MAILTRAP_LOGIN" in
  let password := getenv w "MAILTRAP_PASSWORD" in
  truthy login = true → truthy password = true → truthy host = true →
  MIMEText_result w body "plain" = None →
  create_default_context_result w = None →
  connect_result w host 587 = None →
  starttls_result w = None →
  login_result w login password = None →
  as_string_result w (message_for recipient_email subject body) = None →
  sendmail_result w SENDER_EMAIL recipient_email
    (message_for recipient_email subject body) = None →
  quit_result w = Some e →
  send_user_email w recipient_email subject body start
  = (Return (if isinstance e SMTPServerDisconnected
             then success_message recipient_email subject
             else if isinstance e SMTPException then smtp_error e
             else general_error e),
     {| calls := preparation body ++ [SMTP_call host 587]
                 ++ session_steps w recipient_email subject body
                 ++ session_end;
        connected := false |}).
Proof.
  intros host login password Hlogin Hpassword Hhost Hmime Hcontext Hconnect
    Htls Hauth Hrender Hsend Hquit.
  subst host login password.
  unfold send_user_email. rewrite Hlogin, Hpassword. simpl.
  unfold_run. simpl. rewrite Hmime. simpl. rewrite Hcontext. simpl.
  rewrite Hhost. simpl. rewrite Hconnect. simpl.
  rewrite Htls. simpl. rewrite Hauth. simpl.
  change (attach _ _) with (message_for recipient_email subject body).
  rewrite Hrender. simpl. rewrite Hsend. simpl. rewrite Hquit. simpl.
  destruct (isinstance e SMTPServerDisconnected); simpl; [reflexivity|].
  destruct (isinstance e SMTPException); simpl; [reflexivity|].
  by rewrite isinstance_Exception.
Qed.

Lemma failed_QUIT_reports_a_sent_message_as_an_error_witness :
  (truthy (getenv relay_failing_at_quit "MAILTRAP_LOGIN") = true
   ∧ truthy (getenv relay_failing_at_quit "MAILTRAP_PASSWORD") = true
   ∧ truthy (getenv relay_failing_at_quit "MAILTRAP_HOST") = true
   ∧ MIMEText_result relay_failing_at_quit "Hi" "plain" = None
   ∧ create_default_context_result relay_failing_at_quit = None
   ∧ as_string_result relay_failing_at_quit
       (message_for "bill@example.com" "Status Update" "Hi") = None
   ∧ quit_result relay_failing_at_quit
     = Some {| exn_type := SMTPResponseException;
               exn_str := "(421, b'closing')" |})
  ∧ send_user_email relay_failing_at_quit "bill@example.com" "Status Update" "Hi"
      start
    = (Return (smtp_error {| exn_type := SMTPResponseException;
                             exn_str := "(421, b'closing')" |}),
       {| calls := preparation "Hi"
                   ++ [SMTP_call (Some "sandbox.smtp.mailtrap.io") 587]
                   ++ session_steps relay_failing_at_quit
                        "bill@example.com" "Status Update" "Hi"
                   ++ session_end;
          connected := false |}).
Proof.
  split; [split_and!; reflexivity|].
  apply (failed_QUIT_reports_a_sent_message_as_an_error relay_failing_at_quit
           "bill@example.com" "Status Update" "Hi"
           {| exn_type := SMTPResponseException; exn_str := "(421, b'closing')" |});
    reflexivity.
Defined.

(** X6. When the message and the SSL context were built and the [SMTP]
    constructor raises, nothing else is called on the relay: no STARTTLS, no
    login, no send, no QUIT.  The exception is reported by the handler its
    class selects; a refused or unresolved connection is an [OSError] and
    gets the general error string, not the SMTP one. *)
Theorem failed_connection_is_reported_and_ends_the_call
    w (recipient_email subject body : string) e :
  let host := getenv w "MAILTRAP_HOST" in
  truthy (getenv w "MAILTRAP_LOGIN") = true →
  truthy (getenv w "MAILTRAP_PASSWORD") = true →
  truthy host = true →
  MIMEText_result w body "plain" = None →
  create_default_context_result w = None →
  connect_result w host 587 = Some e →
  send_user_email w recipient_email subject body start
  = (Return (if isinstance e SMTPException then smtp_error e
             else general_error e),
     {| calls := preparation body ++ [SMTP_call host 587];
        connected := false |}).
Proof.
  intros host Hlogin Hpassword Hhost Hmime Hcontext Hconnect. subst host.
  unfold send_user_email. rewrite Hlogin, Hpassword. simpl.
  unfold_run. simpl. rewrite Hmime. simpl. rewrite Hcontext. simpl.
  rewrite Hhost. simpl. rewrite Hconnect. simpl.
  destruct (isinstance e SMTPException); simpl; [reflexivity|].
  by rewrite isinstance_Exception.
Qed.

Lemma failed_connection_is_reported_and_ends_the_call_witness :
  (truthy (getenv unreachable_relay "MAILTRAP_LOGIN") = true
   ∧ truthy (getenv unreachable_relay "MAILTRAP_PASSWORD") = true
   ∧ truthy (getenv unreachable_relay "MAILTRAP_HOST") = true
   ∧ MIMEText_result unreachable_relay "Hi" "plain" = None
   ∧ create_default_context_result unreachable_relay = None
   ∧ connect_result unreachable_relay (getenv unreachable_relay "MAILTRAP_HOST") 587
     = Some {| exn_type := OSError; exn_str := "[Errno 111] Connection refused" |})
  ∧ send_user_email unreachable_relay "bill@example.com" "Status Update" "Hi" start
    = (Return (general_error
                 {| exn_type := OSError;
                    exn_str := "[Errno 111] Connection refused" |}),
       {| calls := preparation "Hi"
                   ++ [SMTP_call (Some "sandbox.smtp.mailtrap.io") 587];
          connected := false |}).
Proof.
  split; [split_and!; reflexivity|].
  apply (failed_connection_is_reported_and_ends_the_call unreachable_relay
           "bill@example.com" "Status Update" "Hi"
           {| exn_type := OSError; exn_str := "[Errno 111] Connection refused" |});
    reflexivity.
Defined.

(** X7. A MAILTRAP_HOST set to the empty string is treated like one that
    is not set: for every falsy host, once the message and the SSL context
    were built, the constructor opens no connection, STARTTLS is the only
    command tried, and the tool returns the SMTP error string with the text
    "please run connect() first", whatever the relay would have answered. *)
Theorem falsy_host_never_reaches_the_relay
    w (recipient_email subject body : string) :
  let host := getenv w "MAILTRAP_HOST" in
  truthy (getenv w "MAILTRAP_LOGIN") = true →
  truthy (getenv w "MAILTRAP_PASSWORD") = true →
  host = None ∨ host = Some EmptyString →
  MIMEText_result w body "plain" = None →
  create_default_context_result w = None →
  send_user_email w recipient_email subject body start
  = (Return (smtp_error not_connected),
     {| calls := preparation body ++ [SMTP_call host 587; starttls_call]
                 ++ session_end;
        connected := false |}).
Proof.
  intros host Hlogin Hpassword Hhost Hmime Hcontext. subst host.
  assert (truthy (getenv w "MAILTRAP_HOST") = false) as Hfalsy
    by by apply truthy_false.
  unfold send_user_email. rewrite Hlogin, Hpassword. simpl.
  unfold_run. simpl. rewrite Hmime. simpl. rewrite Hcontext. simpl.
  rewrite Hfalsy. simpl. reflexivity.
Qed.

Lemma falsy_host_never_reaches_the_relay_witness :
  (truthy (getenv (world env_with_empty_host (Raise refused)) "MAILTRAP_LOGIN") = true
   ∧ truthy (getenv (world env_with_empty_host (Raise refused)) "MAILTRAP_PASSWORD")
     = true
   ∧ (getenv (world env_with_empty_host (Raise refused)) "MAILTRAP_HOST" = None
      ∨ getenv (world env_with_empty_host (Raise refused)) "MAILTRAP_HOST"
        = Some EmptyString)
   ∧ MIMEText_result (world env_with_empty_host (Raise refused)) "Hi" "plain"
     = None
   ∧ create_default_context_result (world env_with_empty_host (Raise refused))
     = None)
  ∧ send_user_email (world env_with_empty_host (Raise refused))
      "bill@example.com" "Status Update" "Hi" start
    = (Return (smtp_error not_connected),
       {| calls := preparation "Hi"
                   ++ [SMTP_call (Some EmptyString) 587; starttls_call]
                   ++ session_end;
          connected := false |}).
Proof.
  split; [split_and!; [reflexivity|reflexivity|by right|reflexivity..]|].
  apply (falsy_host_never_reaches_the_relay
           (world env_with_empty_host (Raise refused))
           "bill@example.com" "Status Update" "Hi");
    [reflexivity|reflexivity|by right|reflexivity..].
Defined.



Example status_tool_asks_the_seeded_service :
  (get_user_status
     (Deployment.mock_service_world mailtrap_env (λ _, "Not Found")
        MockFastAPI.mock_user_statuses 104) 104 start).1
  = Return "User 104 Status: Suspended"
  ∧ (get_user_status
       (Deployment.mock_service_world mailtrap_env (λ _, "Not Found")
          MockFastAPI.mock_user_statuses 7) 7 start).1
    = Return "ERROR: Failed to connect to API or retrieve status. Details: 404 Client Error: Not Found for url: http://127.0.0.1:8001/users/7/status".
Proof. split; reflexivity. Qed.

End ToolsFurther.

(** * The tools of streamlit_agent_app.py against those of agent_workflow.py *)

Section TwoCopies.

Import AgentWorkflow Scenario MoreScenarios.

Implicit Types (w : World) (e : exn) (st : state) (user_id : Z).

Ltac unfold_copies :=
  unfold send_user_email, get_user_status, StreamlitApp.send_user_email,
    StreamlitApp.get_user_status, with_SMTP, SMTP_init, SMTP_exit,
    SMTP_starttls, SMTP_login, SMTP_sendmail, SMTP_send, SMTP_close,
    new_MIMEMultipart, new_MIMEText, create_default_context, as_string,
    requests_get, raise_for_status, response_json, data_get,
    format_int, format_value, raise_if, log, set_connected;
  unfold try_except, try_finally, bind, modify_state, get_state, ret, raise.

(** One more branch of both runs, on a test the code makes; the outcomes
    the statement compares are left alone until the runs are through. *)
Ltac split_run :=
  match goal with
  | |- context [isinstance ?e Exception] => rewrite (isinstance_Exception e)
  | |- context [if ?b then _ else _] => destruct b eqn:?
  | |- context [match ?x with Some _ => _ | None => _ end] => destruct x eqn:?
  | |- context [match ?x with Return _ => _ | Raise _ => _ end] =>
      lazymatch x with
      | fst _ => fail
      | _ => destruct x eqn:?
      end
  | |- context [match ?x with JObject _ => _ | JNotObject _ => _ end] => destruct x eqn:?
  end; simpl.

(** X9. The two definitions of [get_user_status] agree in every world and
    from every state: they issue the same request, raise the same
    exception, and return the same status string; where one returns an
    error string the other returns its own, with the same diagnostic behind
    a different sentence. *)
Theorem both_status_tools_agree w user_id st :
  (StreamlitApp.get_user_status w user_id st).2 = (get_user_status w user_id st).2
  ∧ match (get_user_status w user_id st).1,
          (StreamlitApp.get_user_status w user_id st).1 with
    | Raise e, Raise e' => e = e'
    | Return s, Return s' =>
        (s' = s ∧ ∃ v, s = status_message user_id v)
        ∨ (∃ e, s = api_error e ∧ s' = app_api_error e)
    | _, _ => False
    end.
Proof.
  unfold_copies. change StreamlitApp.API_BASE_URL with API_BASE_URL.
  simpl. repeat split_run.
  all: split; [reflexivity|].
  all: repeat match goal with
              | H : str_int _ = Some _ |- _ => apply str_int_decimal in H; subst
              | H : str_value _ = Some _ |- _ => apply str_value_py_str in H; subst
              end.
  all: first [ reflexivity
             | by left; split; [|eexists]
             | right; by eexists
             | right; by eexists {| exn_type := HTTPError; exn_str := _ |} ].
Qed.

(** X10. The two definitions of [send_user_email] agree in every world
    and from every state: they make the same calls and leave the same
    state; where one raises, which is when [MIMEText] refuses the body
    before the [try], the other raises the same exception; and where one
    returns, the other returns a string of the same kind (configuration
    error, success, SMTP error for the same exception, general error for
    the same exception).  Only the wording differs; the success message of
    the app does not mention the subject. *)
Theorem both_email_tools_agree w (recipient_email subject body : string) st :
  (StreamlitApp.send_user_email w recipient_email subject body st).2
  = (send_user_email w recipient_email subject body st).2
  ∧ match (send_user_email w recipient_email subject body st).1,
          (StreamlitApp.send_user_email w recipient_email subject body st).1 with
    | Raise e, Raise e' => e' = e ∧ MIMEText_result w body "plain" = Some e
    | Return s, Return s' =>
        (s = config_error ∧ s' = app_config_error)
        ∨ (s = success_message recipient_email subject
           ∧ s' = app_success_message recipient_email)
        ∨ (∃ e, isinstance e SMTPException = true
                ∧ s = smtp_error e ∧ s' = app_smtp_error e)
        ∨ (∃ e, isinstance e SMTPException = false
                ∧ s = general_error e ∧ s' = general_error e)
    | _, _ => False
    end.
Proof.
  unfold_copies. change StreamlitApp.SENDER_EMAIL with SENDER_EMAIL.
  simpl. repeat split_run.
  all: split; [reflexivity|].
  all: first [ done
             | by left | by right; left
             | by right; right; left; eexists; split; [|split; reflexivity]
             | by right; right; right; eexists; split; [|split; reflexivity]
             | by right; right; left; exists not_connected ].
Qed.

Example both_email_tools_raise_for_a_lone_surrogate :
  send_user_email (strict_world mailtrap_env (Raise refused))
    "bill@example.com" "Status Update" lone_surrogate start
  = StreamlitApp.send_user_email (strict_world mailtrap_env (Raise refused))
      "bill@example.com" "Status Update" lone_surrogate start.
Proof. reflexivity. Qed.

End TwoCopies.

(** * Properties of the Streamlit page *)

Section Page.

Import AgentWorkflow StreamlitApp MoreScenarios.

Implicit Types (p : page) (e : exn) (chunks : list chunk) (history : list entry).

Ltac unfold_app :=
  unfold with_spinner, draw, messages_append;
  unfold try_except, try_finally, bind, modify_state, get_state, ret, raise.

(** One pass of the loop body. *)
Lemma on_chunk_spec (c : chunk) (full_response : message_content) p :
  on_chunk c full_response p
  = (Return (default full_response (spoken c)),
     {| messages := messages p;
        drawn := drawn p ++ (info <$> option_list (announced c)) |}).
Proof.
  destruct p as [ms dr].
  unfold on_chunk, announced, spoken, first_tool_call.
  destruct c as [chunk_messages|]; simpl; [|by rewrite app_nil_r].
  destruct (last chunk_messages) as [latest|]; simpl; [|by rewrite app_nil_r].
  destruct (content latest) as [body|]; simpl.
  - destruct (content_truthy body); simpl; [by rewrite app_nil_r|].
    destruct (tool_calls latest) as [[|first_call rest]|]; simpl;
      unfold_app; simpl; by rewrite ?app_nil_r.
  - destruct (tool_calls latest) as [[|first_call rest]|]; simpl;
      unfold_app; simpl; by rewrite ?app_nil_r.
Qed.

(** The whole loop. *)
Lemma for_chunks_spec chunks (full_response : message_content) p :
  for_chunks chunks full_response p
  = (Return (default full_response (last (omap spoken chunks))),
     {| messages := messages p;
        drawn := drawn p ++ (info <$> omap announced chunks) |}).
Proof.
  revert full_response p.
  induction chunks as [|c chunks IH]; intros full_response p.
  - destruct p. simpl. by rewrite app_nil_r.
  - simpl. unfold bind. rewrite on_chunk_spec, IH. simpl.
    f_equal.
    + f_equal. destruct (spoken c) as [body|]; simpl; [|done].
      rewrite last_cons.
      change (list_omap _ _ spoken chunks) with (omap spoken chunks).
      by destruct (last (omap spoken chunks)).
    + f_equal. destruct (announced c); simpl.
      * by rewrite <- app_assoc.
      * by rewrite app_nil_r.
Qed.

(** A run of [run_agent], whatever the stream does. *)
Lemma run_agent_spec (question : string) (agent : Agent) chunks
    (failure : option exn) p :
  stream agent question = (chunks, failure) →
  run_agent question agent p
  = (match failure with
     | Some e => Raise e
     | None => Return (last_spoken chunks)
     end,
     {| messages := messages p;
        drawn := drawn p
                 ++ [spinner "Agent is reasoning and executing steps..."]
                 ++ (info <$> omap announced chunks) ++ [spinner_done] |}).
Proof.
  intros Hstream. unfold run_agent, with_spinner. rewrite Hstream.
  unfold draw, try_finally, bind, modify_state. simpl.
  rewrite for_chunks_spec. simpl.
  destruct failure; unfold raise, ret; simpl; rewrite <- !app_assoc; reflexivity.
Qed.


Lemma omap_spoken_silent chunks :
  Forall (λ c, spoken c = None) chunks → omap spoken chunks = [].
Proof.
  induction 1 as [|c chunks Hc _ IH]; [done|].
  simpl. by rewrite Hc.
Qed.

(** X11. [run_agent] returns the content of the latest message of the last
    chunk that brought one, whoever wrote that message: when the model's
    closing message has no text, the answer is the content streamed before
    it, a tool's result or the question itself.  When no chunk brings
    content the answer is the empty string. *)
Theorem run_agent_returns_the_last_content_streamed
    (question : string) (agent : Agent) chunks p :
  stream agent question = (chunks, None) →
  (Forall (λ c, spoken c = None) chunks →
   (run_agent question agent p).1 = Return (Text EmptyString))
  ∧ (∀ (before after : list chunk) (c : chunk) (body : message_content),
       chunks = before ++ c :: after →
       spoken c = Some body →
       Forall (λ c, spoken c = None) after →
       (run_agent question agent p).1 = Return body).
Proof.
  intros Hstream. rewrite (run_agent_spec _ _ _ _ _ Hstream). simpl.
  unfold last_spoken. split.
  - intros Hsilent. by rewrite omap_spoken_silent.
  - intros before after c body -> Hc Hsilent.
    rewrite omap_app.
    change (omap spoken (c :: after))
      with (match spoken c with
            | Some y => y :: omap spoken after
            | None => omap spoken after
            end).
    rewrite Hc, (omap_spoken_silent after Hsilent).
    by rewrite last_snoc.
Qed.

Lemma run_agent_returns_the_last_content_streamed_witness :
  (stream agent_stopping_at_tool question_102 = (take 3 chunks_102, None)
   ∧ take 3 chunks_102 = take 2 chunks_102 ++ Some [human_102; ai_calls_tool; tool_result_102] :: []
   ∧ spoken (Some [human_102; ai_calls_tool; tool_result_102])
     = Some (Text "User 102 Status: Inactive"))
  ∧ (run_agent question_102 agent_stopping_at_tool blank_page).1
    = Return (Text "User 102 Status: Inactive").
Proof.
  split; [split_and!; reflexivity|].
  apply (proj2 (run_agent_returns_the_last_content_streamed question_102
                  agent_stopping_at_tool (take 3 chunks_102) blank_page eq_refl)
           (take 2 chunks_102) []
           (Some [human_102; ai_calls_tool; tool_result_102])).
  - reflexivity.
  - reflexivity.
  - constructor.
Defined.

Lemma notices_app (a b : list ui) : notices (a ++ b) = notices a ++ notices b.
Proof. apply omap_app. Qed.

Lemma notices_info (texts : list string) : notices (info <$> texts) = texts.
Proof. induction texts as [|text texts IH]; simpl; [done|]. by f_equal. Qed.

(** X12. The page gets one notice per chunk whose latest message has tool
    calls and brings no content, in the order of the stream, also when the
    stream breaks later.  The notice names the first tool call of the
    message only, and a message that carries text is not announced even if
    it calls tools. *)
Theorem run_agent_announces_tool_calls_without_text
    (question : string) (agent : Agent) chunks (failure : option exn) p :
  stream agent question = (chunks, failure) →
  notices (drawn (run_agent question agent p).2)
  = notices (drawn p) ++ omap announced chunks
  ∧ (∀ c, spoken c ≠ None → announced c = None)
  ∧ (∀ (text : message_content) (first_call : ToolCall) (others : list ToolCall)
       (earlier : list Message),
       content_truthy text = false →
       announced (Some (earlier ++ [ {| content := Some text;
                                        tool_calls := Some (first_call :: others) |} ]))
       = Some (notice first_call)).
Proof.
  intros Hstream. rewrite (run_agent_spec _ _ _ _ _ Hstream). cbn [snd drawn].
  split_and!.
  - rewrite !notices_app, notices_info. simpl. by rewrite app_nil_r.
  - intros c Hc. unfold announced. by destruct (spoken c).
  - intros text first_call others earlier Htext.
    unfold announced, spoken, first_tool_call.
    rewrite last_snoc. simpl. by rewrite Htext.
Qed.

Lemma run_agent_announces_tool_calls_without_text_witness :
  stream status_agent question_102 = (chunks_102, None)
  ∧ notices (drawn (run_agent question_102 status_agent blank_page).2)
    = notices (drawn blank_page) ++ omap announced chunks_102
  ∧ omap announced chunks_102
    = [ "**🤖 Agent Action:** Calling **get_user_status** with arguments: {'user_id': 102}" ].
Proof.
  split; [reflexivity|]. split; [|reflexivity].
  apply (run_agent_announces_tool_calls_without_text question_102 status_agent
           chunks_102 None blank_page).
  reflexivity.
Defined.


Lemma display_spec history p :
  display history p
  = (Return tt,
     {| messages := messages p; drawn := drawn p ++ flat_map shown history |}).
Proof.
  revert p. induction history as [|[role body] history IH]; intros [ms dr].
  - simpl. by rewrite app_nil_r.
  - simpl. unfold_app. rewrite IH. simpl. by rewrite <- !app_assoc.
Qed.

(** A run of the script from the state [state] of the session, case by
    case. *)
Lemma script_run (v : Visit) (sidebar_instructions : string)
    (state : option (list entry)) :
  let history := default [] state in
  let listed := page_head ++ flat_map shown history in
  let idle :=
    (Return tt,
     {| messages := Some history;
        drawn := listed ++ [input_box] ++ page_foot sidebar_instructions |}) in
  script v sidebar_instructions {| messages := state; drawn := [] |}
  = match model_result v with
    | Some e =>
        (Return tt,
         {| messages := Some history;
            drawn := listed
                     ++ [error ("Error initializing Gemini Model. Is GEMINI_API_KEY set? Error: "
                                +:+ exn_str e)]
                     ++ page_foot sidebar_instructions |})
    | None =>
        match create_agent_result v with
        | Raise e => (Raise e, {| messages := Some history; drawn := listed |})
        | Return agent =>
            match chat_input_value v with
            | None => idle
            | Some prompt =>
                if bool_decide (prompt = EmptyString) then idle
                else
                  let asked :=
                    listed
                    ++ [ input_box; chat_message "user"; markdown (Text prompt);
                         chat_message "assistant";
                         spinner "Agent is reasoning and executing steps..." ]
                    ++ (info <$> omap announced (stream agent prompt).1)
                    ++ [spinner_done] in
                  match (stream agent prompt).2 with
                  | Some e =>
                      (Raise e,
                       {| messages := Some (history ++ [("user", Text prompt)]);
                          drawn := asked |})
                  | None =>
                      let answer := last_spoken (stream agent prompt).1 in
                      (Return tt,
                       {| messages :=
                            Some (history ++ [ ("user", Text prompt);
                                               ("assistant", answer) ]);
                          drawn := asked ++ [markdown answer]
                                   ++ page_foot sidebar_instructions |})
                  end
            end
        end
    end.
Proof.
  intros history listed idle. subst history listed idle.
  unfold script, setup_agent.
  destruct state as [history|]; unfold_app; simpl; rewrite ?display_spec; simpl.
  all: destruct (model_result v) as [e|]; simpl;
    [rewrite isinstance_Exception; simpl; by rewrite <- ?app_assoc|].
  all: destruct (create_agent_result v) as [agent|e]; simpl; [|done].
  all: destruct (chat_input_value v) as [prompt|]; simpl;
    [|by rewrite <- ?app_assoc].
  all: case_bool_decide; simpl; [by rewrite <- ?app_assoc|].
  all: destruct (stream agent prompt) as [chunks failure] eqn:Hstream.
  all: rewrite (run_agent_spec _ _ _ _ _ Hstream); simpl.
  all: destruct failure; simpl; rewrite <- ?app_assoc; simpl; reflexivity.
Qed.


Lemma transcript_shown history (rest : list ui) :
  transcript None (flat_map shown history ++ rest)
  = history ++ transcript None rest.
Proof.
  induction history as [|[role body] history IH]; [done|].
  simpl. by rewrite IH.
Qed.

Lemma transcript_info (role : option string) (texts : list string) (rest : list ui) :
  transcript role ((info <$> texts) ++ rest) = transcript role rest.
Proof. induction texts as [|text texts IH]; [done|]. simpl. apply IH. Qed.

(** X13. A run that gets a prompt and an answer appends exactly two
    entries to the history, the question under "user" and then the answer
    under "assistant", and keeps every earlier entry in place.  The chat it
    draws is the history it leaves: the earlier entries, the question and
    the answer, in that order. *)
Theorem answered_prompt_appends_question_then_answer
    (v : Visit) (sidebar_instructions : string) (state : option (list entry))
    (agent : Agent) (prompt : string) chunks :
  model_result v = None →
  create_agent_result v = Return agent →
  chat_input_value v = Some prompt →
  prompt ≠ EmptyString →
  stream agent prompt = (chunks, None) →
  let after := script v sidebar_instructions {| messages := state; drawn := [] |} in
  let history := default [] state in
  after.1 = Return tt
  ∧ messages after.2
    = Some (history ++ [("user", Text prompt); ("assistant", last_spoken chunks)])
  ∧ Some (transcript None (drawn after.2)) = messages after.2.
Proof.
  intros Hmodel Hagent Hinput Hprompt Hstream after history. subst after history.
  rewrite script_run. cbn zeta.
  rewrite Hmodel, Hagent, Hinput, bool_decide_eq_false_2, Hstream by done.
  cbn [fst snd messages drawn]. split_and!; [done..|].
  f_equal. unfold page_head. rewrite <- !app_assoc. cbn [app transcript].
  rewrite transcript_shown. f_equal.
  cbn [app transcript]. by rewrite transcript_info.
Qed.

Lemma answered_prompt_appends_question_then_answer_witness :
  (model_result (visit_asking status_agent) = None
   ∧ create_agent_result (visit_asking status_agent) = Return status_agent
   ∧ chat_input_value (visit_asking status_agent) = Some question_102
   ∧ question_102 ≠ EmptyString
   ∧ stream status_agent question_102 = (chunks_102, None))
  ∧ messages (script (visit_asking status_agent) "Instructions" blank_page).2
    = Some ([] ++ [ ("user", Text question_102);
                    ("assistant", last_spoken chunks_102) ]).
Proof.
  split; [split_and!; done|].
  apply (answered_prompt_appends_question_then_answer (visit_asking status_agent)
           "Instructions" None status_agent question_102 chunks_102); done.
Defined.

Lemma shown_draws_the_chat_only history (u : ui) :
  u ∈ flat_map shown history →
  (∃ role, u = chat_message role) ∨ (∃ body, u = markdown body).
Proof.
  induction history as [|[role body] history IH]; simpl.
  - by intros ?%elem_of_nil.
  - rewrite !elem_of_cons. intros [-> | [-> | Hin]]; eauto.
Qed.

(** Closes [u ∉ l] for a page [l] put together from literal calls, the
    drawn history and notices, when [u] is none of these. *)
Ltac not_drawn :=
  rewrite ?not_elem_of_app; split_and?;
  first
    [ intros [[? H] | [? H]]%shown_draws_the_chat_only; discriminate H
    | intros (? & H & _)%list_elem_of_fmap; discriminate H
    | unfold page_head, page_foot, input_box;
      rewrite ?not_elem_of_cons; split_and?;
      first [done | apply not_elem_of_nil] ].

(** X14. A run without an agent or without a prompt writes nothing to the
    history: it leaves the entries it found (an empty list on the first run
    of a session) and draws all of them.  When the model could not be built
    the run shows the error and draws no input box, so no prompt can be
    given; the run itself still ends normally. *)
Theorem idle_run_leaves_the_history
    (v : Visit) (sidebar_instructions : string) (state : option (list entry)) :
  is_Some (model_result v)
  ∨ ((∃ agent, create_agent_result v = Return agent)
     ∧ (chat_input_value v = None ∨ chat_input_value v = Some EmptyString)) →
  let after := script v sidebar_instructions {| messages := state; drawn := [] |} in
  let history := default [] state in
  after.1 = Return tt
  ∧ messages after.2 = Some history
  ∧ transcript None (drawn after.2) = history
  ∧ (∀ e, model_result v = Some e →
       (input_box ∉ drawn after.2)
       ∧ (error ("Error initializing Gemini Model. Is GEMINI_API_KEY set? Error: "
                 +:+ exn_str e) ∈ drawn after.2)).
Proof.
  intros Hidle after history. subst after history.
  rewrite script_run. cbn zeta.
  destruct (model_result v) as [e|] eqn:Hmodel.
  - cbn [fst snd messages drawn]. split_and!; [done|done|..].
    + unfold page_head. cbn [app transcript].
      rewrite transcript_shown. simpl. by rewrite app_nil_r.
    + intros e' [= <-]. split.
      * not_drawn.
      * rewrite !elem_of_app. right. left. by left.
  - destruct Hidle as [[e He]|[[agent Hagent] Hinput]]; [done|].
    rewrite Hagent.
    assert ((if chat_input_value v is Some prompt
             then bool_decide (prompt = EmptyString) else true) = true) as Hblank
      by (by destruct Hinput as [-> | ->]).
    destruct (chat_input_value v) as [prompt|]; [rewrite Hblank|];
      cbn [fst snd messages drawn].
    all: split_and!; [done|done| |done].
    all: unfold page_head; cbn [app transcript].
    all: rewrite transcript_shown; simpl; by rewrite app_nil_r.
Qed.

Lemma idle_run_leaves_the_history_witness :
  (is_Some (model_result visit_without_key)
   ∨ ((∃ agent, create_agent_result visit_without_key = Return agent)
      ∧ (chat_input_value visit_without_key = None
         ∨ chat_input_value visit_without_key = Some EmptyString)))
  ∧ messages (script visit_without_key "Instructions"
                {| messages := Some [("user", Text question_102)]; drawn := [] |}).2
    = Some [("user", Text question_102)].
Proof.
  split; [by left; eexists|].
  apply (idle_run_leaves_the_history visit_without_key "Instructions"
           (Some [("user", Text question_102)])).
  by left; eexists.
Defined.

(** X15. When the stream of the agent breaks, the run ends with that
    exception, and the history keeps the question without an answer: the
    "user" entry was appended before the agent ran, and nothing removes it.
    The rest of the page, the sidebar, is not drawn. *)
Theorem broken_stream_leaves_a_question_without_answer
    (v : Visit) (sidebar_instructions : string) (state : option (list entry))
    (agent : Agent) (prompt : string) chunks e :
  model_result v = None →
  create_agent_result v = Return agent →
  chat_input_value v = Some prompt →
  prompt ≠ EmptyString →
  stream agent prompt = (chunks, Some e) →
  let after := script v sidebar_instructions {| messages := state; drawn := [] |} in
  after.1 = Raise e
  ∧ messages after.2 = Some (default [] state ++ [("user", Text prompt)])
  ∧ last (drawn after.2) = Some spinner_done
  ∧ (∀ text, sidebar_header text ∉ drawn after.2).
Proof.
  intros Hmodel Hagent Hinput Hprompt Hstream after. subst after.
  rewrite script_run. cbn zeta.
  rewrite Hmodel, Hagent, Hinput, bool_decide_eq_false_2, Hstream by done.
  cbn [fst snd messages drawn]. split_and!; [done|done|..].
  - by rewrite !app_assoc, last_snoc.
  - intros text. not_drawn.
Qed.

Lemma broken_stream_leaves_a_question_without_answer_witness :
  (model_result (visit_asking failing_agent) = None
   ∧ create_agent_result (visit_asking failing_agent) = Return failing_agent
   ∧ chat_input_value (visit_asking failing_agent) = Some question_102
   ∧ question_102 ≠ EmptyString
   ∧ stream failing_agent question_102 = (take 2 chunks_102, Some quota_error))
  ∧ (script (visit_asking failing_agent) "Instructions" blank_page).1
    = Raise quota_error.
Proof.
  split; [split_and!; done|].
  apply (broken_stream_leaves_a_question_without_answer
           (visit_asking failing_agent) "Instructions" None failing_agent
           question_102 (take 2 chunks_102) quota_error); done.
Defined.


(** What one run does to the history. *)
Lemma script_adds_at_most_one_turn
    (v : Visit) (sidebar_instructions : string) (state : option (list entry)) :
  ∃ block : list entry,
    messages (script v sidebar_instructions {| messages := state; drawn := [] |}).2
    = Some (default [] state ++ block)
    ∧ (block = [] ∨ turn block).
Proof.
  rewrite script_run. cbn zeta.
  destruct (model_result v) as [e|];
    [exists []; rewrite app_nil_r; by split; [|left]|].
  destruct (create_agent_result v) as [agent|e];
    [|exists []; rewrite app_nil_r; by split; [|left]].
  destruct (chat_input_value v) as [prompt|];
    [|exists []; rewrite app_nil_r; by split; [|left]].
  case_bool_decide as Hprompt;
    [exists []; rewrite app_nil_r; by split; [|left]|].
  destruct (stream agent prompt).2 as [e|].
  - exists [("user", Text prompt)]. split; [done|].
    right. exists prompt. split; [done|by left].
  - eexists. split; [reflexivity|].
    right. exists prompt. split; [done|]. right. by eexists.
Qed.

(** X16. Over a whole session the history only grows at its end: after any
    number of runs, however each of them ended, it is the history the
    session started with followed by at most one block per run, each block
    a non-empty question under "user", alone or followed at once by its
    answer under "assistant".  So no entry is ever changed or dropped, and
    an answer always sits right after the question it answers. *)
Theorem session_history_only_grows_by_turns
    (sidebar_instructions : string) (visits : list Visit)
    (state : option (list entry)) :
  ∃ blocks : list (list entry),
    default [] (session sidebar_instructions visits state)
    = default [] state ++ concat blocks
    ∧ Forall turn blocks
    ∧ (length blocks ≤ length visits)%nat
    ∧ (visits ≠ [] → is_Some (session sidebar_instructions visits state)).
Proof.
  revert state. induction visits as [|v visits IH]; intros state.
  - exists []. simpl. rewrite app_nil_r. split_and!; [done|done|lia|done].
  - destruct (script_adds_at_most_one_turn v sidebar_instructions state)
      as (block & Hafter & Hblock).
    simpl. rewrite Hafter.
    destruct (IH (Some (default [] state ++ block)))
      as (blocks & Hhistory & Hturns & Hlength & Hsome).
    assert (is_Some (session sidebar_instructions visits
                       (Some (default [] state ++ block)))) as Hthere.
    { destruct visits; [by eexists|]. by apply Hsome. }
    destruct Hblock as [-> | Hturn].
    + exists blocks. rewrite app_nil_r in *.
      split_and!; [done|done|simpl; lia|done].
    + exists (block :: blocks). simpl in *. rewrite Hhistory, <- app_assoc.
      split_and!; [done|by constructor|lia|done].
Qed.

Example session_with_a_broken_run :
  session "Instructions"
    [visit_asking status_agent; visit_asking failing_agent; visit_without_key;
     visit_asking status_agent] None
  = Some [ ("user", Text question_102);
           ("assistant", Text "The status for ID 102 is Inactive.");
           ("user", Text question_102);
           ("user", Text question_102);
           ("assistant", Text "The status for ID 102 is Inactive.") ].
Proof. reflexivity. Qed.

End Page.
